(** * fastenum: the enumeration metaclass and its query surface

    A shallow embedding of [fastenum/fastenum.py]: the class-construction
    interceptor [EnumMeta.__new__], the queries [__call__], [__getitem__],
    [__iter__], [__reversed__], [__len__] and the member behaviour of
    [Enum] ([__repr__], [__str__], [__hash__], [__reduce_ex__];
    [__format__] only forwards to [str.__format__] and is left out).

    Python objects other than enumeration members are kept abstract: the
    code only ever asks them for identity, [==], [hash], [hasattr], [str]
    and [repr], which is the interface [PyRuntime] below.  These services
    return, except [hash], which may raise [TypeError].  Exceptions are
    explicit: fallible code returns a [result].

    An enumeration class is taken with the [__new__], [__eq__] and
    [__hash__] it inherits, and its [__init__] hook returns or raises but
    does not rebind the attributes of the member it is given. *)

From Stdlib Require Import List String Ascii ZArith Bool Permutation.
Import ListNotations.
Local Open Scope string_scope.
Local Open Scope Z_scope.

Set Implicit Arguments.

(** ** Exceptions and the error monad *)

Inductive exn : Type :=
| KeyError (key : string)
| TypeError (msg : string)
| ValueError (msg : string)
| OtherError (kind msg : string).

Inductive result (A : Type) : Type :=
| Return (a : A)
| Raise (e : exn).

Arguments Return {A} a.
Arguments Raise {A} e.

Definition bind {A B : Type} (c : result A) (k : A -> result B) : result B :=
  match c with
  | Return a => k a
  | Raise e => Raise e
  end.

Notation "x <- c ;; k" := (bind c (fun x => k))
  (at level 61, c at next level, right associativity).

(** [except (KeyError, TypeError):] *)
Definition is_KeyError_or_TypeError (e : exn) : bool :=
  match e with
  | KeyError _ | TypeError _ => true
  | _ => false
  end.

(** [except TypeError:] *)
Definition is_TypeError (e : exn) : bool :=
  match e with
  | TypeError _ => true
  | _ => false
  end.

(** [try: c  except caught: handler] *)
Definition try_except {A : Type} (c : result A) (caught : exn -> bool)
    (handler : result A) : result A :=
  match c with
  | Return a => Return a
  | Raise e => if caught e then handler else Raise e
  end.

(** ** The interpreter services the module relies on *)

(** [V] is the type of Python objects that are not instances of an
    enumeration class.  [v_eq a b] is the truth value of [a == b],
    [v_hash v] is [None] when [hash(v)] raises [TypeError]. *)
Class PyRuntime (V : Type) : Type := {
  v_is : V -> V -> bool;
  v_eq : V -> V -> bool;
  v_hash : V -> option Z;
  v_hasattr : V -> string -> bool;
  v_str : V -> string;
  v_repr : V -> string;
  str_hash : string -> Z
}.

(** What Python's data model asks of [==]: identical objects compare
    equal, and equality is symmetric and transitive. *)
Class PyLaws (V : Type) `{PyRuntime V} : Prop := {
  v_is_eq : forall a b, v_is a b = true -> v_eq a b = true;
  v_eq_sym : forall a b, v_eq a b = true -> v_eq b a = true;
  v_eq_trans : forall a b c, v_eq a b = true -> v_eq b c = true -> v_eq a c = true
}.

Arguments PyLaws V {_}.

(** ** Type objects, members and the object universe *)

(** A type object as far as this module looks at it: its identity, its
    [__name__] and the identities of its proper ancestors. *)
Record pytype : Type := {
  tp_id : nat;
  tp_name : string;
  tp_ancestors : list nat
}.

Record member_of (O : Type) : Type := {
  m_class : pytype;
  name : string;
  value : O;
  _repr : string;
  _hash : Z
}.

Arguments m_class {O} _.
Arguments name {O} _.
Arguments value {O} _.
Arguments _repr {O} _.
Arguments _hash {O} _.

#[warnings="-register-all"]
Inductive pyobj (V : Type) : Type :=
| Plain (v : V)
| Inst (m : member_of (pyobj V)).

Arguments Plain {V} v.
Arguments Inst {V} m.

Definition member (V : Type) : Type := member_of (pyobj V).

(** ** Member instance behaviour: [class Enum] *)

Module Enum.
Section Enum.
Context {V : Type}.

(** [return self._repr] *)
Definition __repr__ (self : member V) : string := _repr self.

(** ['%s.%s' % (self.__class__.__name__, self.name)] *)
Definition __str__ (self : member V) : string :=
  tp_name (m_class self) ++ "." ++ name self.

(** [return self._hash] *)
Definition __hash__ (self : member V) : Z := _hash self.

(** [return self.__class__, (self.value,)] *)
Definition __reduce_ex__ (self : member V) (proto : Z)
  : pytype * list (pyobj V) :=
  (m_class self, [value self]).
End Enum.
End Enum.

(** ** Identity, equality, hashing and attributes of arbitrary objects *)

Section Objects.
Context {V : Type} `{PyRuntime V}.

(** Two references denote the same member when they agree on the owning
    type object and on the name, which is unique within a type. *)
Definition member_is (a b : member V) : bool :=
  Nat.eqb (tp_id (m_class a)) (tp_id (m_class b))
  && String.eqb (name a) (name b).

Definition py_is (a b : pyobj V) : bool :=
  match a, b with
  | Plain x, Plain y => v_is x y
  | Inst m, Inst n => member_is m n
  | _, _ => false
  end.

(** [a == b].  [Enum] defines no [__eq__], so members compare by
    identity, and a member is equal to no other kind of object. *)
Definition py_eq (a b : pyobj V) : bool :=
  match a, b with
  | Plain x, Plain y => v_eq x y
  | Inst m, Inst n => member_is m n
  | _, _ => false
  end.

(** [hash(o)]; [None] stands for the [TypeError] of an unhashable object. *)
Definition py_hash (o : pyobj V) : option Z :=
  match o with
  | Plain x => v_hash x
  | Inst m => Some (Enum.__hash__ m)
  end.

Definition member_attributes : list string :=
  ["name"; "value"; "_repr"; "_hash"; "__repr__"; "__str__"; "__hash__";
   "__format__"; "__reduce_ex__"].

Definition hasattr (o : pyobj V) (attr : string) : bool :=
  match o with
  | Plain x => v_hasattr x attr
  | Inst _ => existsb (String.eqb attr) member_attributes
  end.

Definition py_str (o : pyobj V) : string :=
  match o with
  | Plain x => v_str x
  | Inst m => Enum.__str__ m
  end.

Definition py_repr (o : pyobj V) : string :=
  match o with
  | Plain x => v_repr x
  | Inst m => Enum.__repr__ m
  end.

(** [isinstance(o, cls)]: the class of [o] is [cls] or derives from it. *)
Definition isinstance (o : pyobj V) (cls : pytype) : bool :=
  match o with
  | Plain _ => false
  | Inst m =>
      Nat.eqb (tp_id (m_class m)) (tp_id cls)
      || existsb (Nat.eqb (tp_id cls)) (tp_ancestors (m_class m))
  end.

(** [name.startswith('_')] *)
Definition startswith (s p : string) : bool := String.prefix p s.

Definition _is_descriptor (obj : pyobj V) : bool :=
  hasattr obj "__get__" || hasattr obj "__set__" || hasattr obj "__delete__".
End Objects.

(** ** [collections.OrderedDict] with string keys *)

Section OrderedDict.
Context {A : Type}.

Definition OrderedDict : Type := list (string * A).

(** [d[k] = a]: an existing key keeps its position. *)
Fixpoint od_setitem (d : OrderedDict) (k : string) (a : A) : OrderedDict :=
  match d with
  | [] => [(k, a)]
  | (k', a') :: rest =>
      if String.eqb k' k then (k', a) :: rest
      else (k', a') :: od_setitem rest k a
  end.

Fixpoint od_find (d : OrderedDict) (k : string) : option A :=
  match d with
  | [] => None
  | (k', a') :: rest => if String.eqb k' k then Some a' else od_find rest k
  end.

(** [d[k]] *)
Definition od_getitem (d : OrderedDict) (k : string) : result A :=
  match od_find d k with
  | Some a => Return a
  | None => Raise (KeyError k)
  end.

Definition od_items (d : OrderedDict) : list (string * A) := d.
Definition od_keys (d : OrderedDict) : list string := map fst d.
Definition od_values (d : OrderedDict) : list A := map snd d.
Definition od_len (d : OrderedDict) : nat := List.length d.
End OrderedDict.

Arguments OrderedDict A : clear implicits.

(** ** The built-in [dict] keyed by arbitrary objects *)

Section Dict.
Context {V : Type} `{PyRuntime V}.

Record entry : Type := {
  e_hash : Z;
  e_key : pyobj V;
  e_val : member V
}.

Definition pydict : Type := list entry.

(** A slot holds the key looked for when the hashes agree and the stored
    key is the same object as, or compares equal to, the query. *)
Definition key_match (e : entry) (h : Z) (k : pyobj V) : bool :=
  Z.eqb (e_hash e) h && (py_is (e_key e) k || py_eq (e_key e) k).

Fixpoint dict_find (d : pydict) (h : Z) (k : pyobj V) : option (member V) :=
  match d with
  | [] => None
  | e :: rest => if key_match e h k then Some (e_val e) else dict_find rest h k
  end.

(** Storing under a key that is already present replaces the value and
    keeps the key object first inserted. *)
Fixpoint dict_store (d : pydict) (h : Z) (k : pyobj V) (m : member V) : pydict :=
  match d with
  | [] => [ {| e_hash := h; e_key := k; e_val := m |} ]
  | e :: rest =>
      if key_match e h k
      then {| e_hash := e_hash e; e_key := e_key e; e_val := m |} :: rest
      else e :: dict_store rest h k m
  end.

(** [d[k] = m] *)
Definition dict_setitem (d : pydict) (k : pyobj V) (m : member V) : result pydict :=
  match py_hash k with
  | None => Raise (TypeError "unhashable type")
  | Some h => Return (dict_store d h k m)
  end.

(** [d[k]] *)
Definition dict_getitem (d : pydict) (k : pyobj V) : result (member V) :=
  match py_hash k with
  | None => Raise (TypeError "unhashable type")
  | Some h =>
      match dict_find d h k with
      | Some m => Return m
      | None => Raise (KeyError (py_repr k))
      end
  end.
End Dict.

Arguments entry V : clear implicits.
Arguments pydict V : clear implicits.

(** ** The class-construction interceptor and the queries: [class EnumMeta] *)

Section EnumClass.
Context {V : Type} `{PyRuntime V}.

(** An enumeration class: the type object, its attribute namespace
    ([__dict__]: the class body, then what [setattr] stores) and the two
    indexes [__new__] attaches to it. *)
Record enum_type : Type := {
  cls_type : pytype;
  cls_dict : OrderedDict (pyobj V);
  _member_map_ : OrderedDict (member V);
  _value_to_member_map_ : pydict V
}.

(** [type.__new__(mcs, cls, bases, classdict)]: a new type object, whose
    identity [addr] is fresh, named [cls] and deriving from [bases]. *)
Definition type_object (addr : nat) (cls : string) (bases : list pytype)
  : pytype :=
  {| tp_id := addr;
     tp_name := cls;
     tp_ancestors := flat_map (fun b => tp_id b :: tp_ancestors b) bases |}.

Definition type___new__ (addr : nat) (cls : string) (bases : list pytype)
    (classdict : OrderedDict (pyobj V)) : enum_type :=
  {| cls_type := type_object addr cls bases;
     cls_dict := classdict;
     _member_map_ := [];
     _value_to_member_map_ := [] |}.

(** [setattr(enum_class, name, obj)] *)
Definition setattr (c : enum_type) (attr : string) (o : pyobj V) : enum_type :=
  {| cls_type := cls_type c;
     cls_dict := od_setitem (cls_dict c) attr o;
     _member_map_ := _member_map_ c;
     _value_to_member_map_ := _value_to_member_map_ c |}.

Definition set_member_map (c : enum_type) (mm : OrderedDict (member V)) : enum_type :=
  {| cls_type := cls_type c;
     cls_dict := cls_dict c;
     _member_map_ := mm;
     _value_to_member_map_ := _value_to_member_map_ c |}.

Definition set_value_to_member_map (c : enum_type) (vm : pydict V) : enum_type :=
  {| cls_type := cls_type c;
     cls_dict := cls_dict c;
     _member_map_ := _member_map_ c;
     _value_to_member_map_ := vm |}.

(** [getattr(cls, attr)] as far as the class's own namespace goes. *)
Definition class_getattr (c : enum_type) (attr : string) : option (pyobj V) :=
  od_find (cls_dict c) attr.

(** The instance [enum_class.__new__(enum_class)] once [name], [value],
    [_repr] and [_hash] have been assigned (source lines 39-44). *)
Definition new_member (ty : pytype) (nm : string) (val : pyobj V) : member V :=
  {| m_class := ty;
     name := nm;
     value := val;
     _repr := "<" ++ tp_name ty ++ "." ++ nm ++ ": " ++ py_repr val ++ ">";
     _hash := str_hash nm |}.

(** The test of source line 38. *)
Definition is_member_binding (b : string * pyobj V) : bool :=
  negb (startswith (fst b) "_") && negb (_is_descriptor (snd b)).
End EnumClass.

Arguments enum_type V : clear implicits.

Module EnumMeta.
Section EnumMeta.
Context {V : Type} `{PyRuntime V}.

(** [__prepare__]: the class body is collected in an [OrderedDict]. *)
Definition __prepare__ (cls : string) (bases : list pytype)
  : OrderedDict (pyobj V) := [].

(** The [for name, value in classdict.items()] loop of [__new__].
    [tp_init] is the [__init__] that [member.__init__()] resolves to; it
    returns normally or raises. *)
Fixpoint new_loop (tp_init : member V -> result unit)
    (items : list (string * pyobj V)) (enum_class : enum_type V)
  : result (enum_type V) :=
  match items with
  | [] => Return enum_class
  | (nm, val) :: rest =>
      if negb (startswith nm "_") && negb (_is_descriptor val) then
        let member := new_member (cls_type enum_class) nm val in
        _ <- tp_init member ;;
        let enum_class := setattr enum_class nm (Inst member) in
        let enum_class :=
          set_member_map enum_class
            (od_setitem (_member_map_ enum_class) nm member) in
        enum_class <-
          try_except
            (vm <- dict_setitem (_value_to_member_map_ enum_class) val member ;;
             Return (set_value_to_member_map enum_class vm))
            is_TypeError
            (Return enum_class) ;;
        new_loop tp_init rest enum_class
      else new_loop tp_init rest enum_class
  end.

Definition __new__ (addr : nat) (tp_init : member V -> result unit)
    (cls : string) (bases : list pytype) (classdict : OrderedDict (pyobj V))
  : result (enum_type V) :=
  let enum_class := type___new__ addr cls bases classdict in
  new_loop tp_init (od_items classdict) enum_class.

(** The linear search of source lines 70-72. *)
Definition long_search (members : list (member V)) (val : pyobj V)
  : option (member V) :=
  find (fun member => py_eq (value member) val) members.

Definition __call__ (cls : enum_type V) (val : pyobj V) : result (pyobj V) :=
  if isinstance val (cls_type cls) then Return val
  else
    found <-
      try_except
        (m <- dict_getitem (_value_to_member_map_ cls) val ;; Return (Some m))
        is_KeyError_or_TypeError
        (Return (long_search (od_values (_member_map_ cls)) val)) ;;
    match found with
    | Some m => Return (Inst m)
    | None =>
        Raise (ValueError
                 (py_str val ++ " is not a valid " ++ tp_name (cls_type cls)))
    end.

Definition __getitem__ (cls : enum_type V) (nm : string) : result (member V) :=
  od_getitem (_member_map_ cls) nm.

Definition __iter__ (cls : enum_type V) : list (member V) :=
  od_values (_member_map_ cls).

(** [reversed(list(cls))] *)
Definition __reversed__ (cls : enum_type V) : list (member V) :=
  rev (__iter__ cls).

Definition __len__ (cls : enum_type V) : nat :=
  od_len (_member_map_ cls).
End EnumMeta.
End EnumMeta.

(** The namespace a class body leaves behind: [__prepare__] hands out an
    empty [OrderedDict] and every assignment of the body is a [__setitem__]. *)
Definition exec_body {V : Type} (cls : string) (bases : list pytype)
    (body : list (string * pyobj V)) : OrderedDict (pyobj V) :=
  fold_left (fun d b => od_setitem d (fst b) (snd b)) body
    (EnumMeta.__prepare__ cls bases).

(** ** Notions used to state the properties *)

(** An [OrderedDict] holds each key once. *)
Definition od_wf {A : Type} (d : OrderedDict A) : Prop := NoDup (od_keys d).

Section Derived.
Context {V : Type} `{PyRuntime V}.

(** The members a namespace gives rise to, in declaration order. *)
Definition declared_members (ty : pytype) (items : list (string * pyobj V))
  : list (member V) :=
  map (fun b => new_member ty (fst b) (snd b)) (filter is_member_binding items).

(** What source lines 50-55 do to the value index for one member. *)
Definition index_add (vm : pydict V) (m : member V) : pydict V :=
  match py_hash (value m) with
  | Some h => dict_store vm h (value m) m
  | None => vm
  end.

(** One pass of the loop body when the hook returns normally. *)
Definition add_member (ec : enum_type V) (m : member V) : enum_type V :=
  {| cls_type := cls_type ec;
     cls_dict := od_setitem (cls_dict ec) (name m) (Inst m);
     _member_map_ := od_setitem (_member_map_ ec) (name m) m;
     _value_to_member_map_ := index_add (_value_to_member_map_ ec) m |}.

(** The exception of the first hook that raises, if any does. *)
Fixpoint hook_failure (tp_init : member V -> result unit)
    (ms : list (member V)) : option exn :=
  match ms with
  | [] => None
  | m :: rest =>
      match tp_init m with
      | Raise e => Some e
      | Return _ => hook_failure tp_init rest
      end
  end.

(** Every slot of the index holds a member of the list it was built
    from, under a key that is the value of one of them and that matched
    the value of the member it holds when that member was stored. *)
Definition entry_ok (ms : list (member V)) (e : entry V) : Prop :=
  In (e_val e) ms /\
  (exists m0, In m0 ms /\ e_key e = value m0) /\
  (e_key e = value (e_val e)
   \/ (py_is (e_key e) (value (e_val e))
       || py_eq (e_key e) (value (e_val e))) = true).
(** A slot stores the hash of its key, and the member it holds has a
    value of that same hash. *)
Definition slot_hashed (e : entry V) : Prop :=
  py_hash (e_key e) = Some (e_hash e)
  /\ py_hash (value (e_val e)) = Some (e_hash e).

End Derived.

(** ** A concrete runtime: integers, strings, lists and functions *)

Inductive pyval : Type :=
| PyInt (n : Z)
| PyStr (s : string)
| PyList (items : list Z)
| PyFunction (qualname : string).

Definition pyval_eqb (a b : pyval) : bool :=
  match a, b with
  | PyInt x, PyInt y => Z.eqb x y
  | PyStr x, PyStr y => String.eqb x y
  | PyList x, PyList y => if list_eq_dec Z.eq_dec x y then true else false
  | PyFunction x, PyFunction y => String.eqb x y
  | _, _ => false
  end.

(** A stand-in for the interpreter's string hash. *)
Fixpoint string_hash_from (acc : Z) (s : string) : Z :=
  match s with
  | EmptyString => acc
  | String c rest =>
      string_hash_from ((acc * 31 + Z.of_nat (nat_of_ascii c)) mod 2305843009213693951) rest
  end.

(** [hash(n)] for an [int]: reduction modulo [2^61 - 1], never [-1]. *)
Definition int_hash (n : Z) : Z :=
  let h := Z.sgn n * (Z.abs n mod 2305843009213693951) in
  if Z.eqb h (-1) then -2 else h.

Fixpoint nat_digits (fuel n : nat) (acc : string) : string :=
  match fuel with
  | O => acc
  | S fuel' =>
      let d := String (ascii_of_nat (48 + Nat.modulo n 10)) acc in
      if Nat.ltb n 10 then d else nat_digits fuel' (Nat.div n 10) d
  end.

Definition int_str (n : Z) : string :=
  let digits := nat_digits (S (Z.abs_nat n)) (Z.abs_nat n) EmptyString in
  if Z.ltb n 0 then "-" ++ digits else digits.

Fixpoint join_ints (l : list Z) : string :=
  match l with
  | [] => EmptyString
  | [x] => int_str x
  | x :: rest => int_str x ++ ", " ++ join_ints rest
  end.

Definition pyval_str (v : pyval) : string :=
  match v with
  | PyInt n => int_str n
  | PyStr s => s
  | PyList l => "[" ++ join_ints l ++ "]"
  | PyFunction q => "<function " ++ q ++ ">"
  end.

Definition pyval_repr (v : pyval) : string :=
  match v with
  | PyStr s => "'" ++ s ++ "'"
  | _ => pyval_str v
  end.

#[export] Instance pyval_runtime : PyRuntime pyval := {
  v_is := pyval_eqb;
  v_eq := pyval_eqb;
  v_hash v :=
    match v with
    | PyInt n => Some (int_hash n)
    | PyStr s => Some (string_hash_from 0 s)
    | PyList _ => None
    | PyFunction q => Some (string_hash_from 7 q)
    end;
  v_hasattr v attr :=
    match v with
    | PyFunction _ => String.eqb attr "__get__"
    | _ => false
    end;
  v_str := pyval_str;
  v_repr := pyval_repr;
  str_hash := string_hash_from 0
}.

(** [object.__init__]: returns normally. *)
Definition object___init__ (self : member pyval) : result unit := Return tt.

(** A hook that a class body may supply:
    [def __init__(self): assert self.value >= 0]. *)
Definition checked___init__ (self : member pyval) : result unit :=
  match value self with
  | Plain (PyInt n) =>
      if Z.ltb n 0 then Raise (OtherError "AssertionError" "negative value")
      else Return tt
  | _ => Return tt
  end.

Definition Enum_type : pytype :=
  {| tp_id := 1; tp_name := "Enum"; tp_ancestors := [0%nat] |}.

Definition class_namespace (qualname : string) (body : list (string * pyobj pyval))
  : OrderedDict (pyobj pyval) :=
  exec_body qualname [Enum_type]
    (("__module__", Plain (PyStr "__main__"))
     :: ("__qualname__", Plain (PyStr qualname)) :: body).

Definition returned {A : Type} (r : result A) (otherwise : A) : A :=
  match r with
  | Return a => a
  | Raise _ => otherwise
  end.

(** [class Color(Enum): RED = 1; GREEN = 2; BLUE = 3; def describe(self): ...] *)
Definition Color_dict : OrderedDict (pyobj pyval) :=
  Eval vm_compute in
    class_namespace "Color"
      [("RED", Plain (PyInt 1)); ("GREEN", Plain (PyInt 2));
       ("BLUE", Plain (PyInt 3));
       ("describe", Plain (PyFunction "Color.describe"))].

Definition Color : enum_type pyval :=
  Eval vm_compute in
    returned (EnumMeta.__new__ 2 object___init__ "Color" [Enum_type] Color_dict)
             (type___new__ 2 "Color" [Enum_type] Color_dict).

Definition Color_GREEN : member pyval :=
  Eval vm_compute in new_member (cls_type Color) "GREEN" (Plain (PyInt 2)).

(** [class Flags(Enum): A = 1; B = 1] *)
Definition Flags_dict : OrderedDict (pyobj pyval) :=
  Eval vm_compute in
    class_namespace "Flags" [("A", Plain (PyInt 1)); ("B", Plain (PyInt 1))].

Definition Flags : enum_type pyval :=
  Eval vm_compute in
    returned (EnumMeta.__new__ 3 object___init__ "Flags" [Enum_type] Flags_dict)
             (type___new__ 3 "Flags" [Enum_type] Flags_dict).

(** [class Shape(Enum): SEGMENT = [0, 1]; EDGE = [0, 1]; POINT = [0]] *)
Definition Shape_dict : OrderedDict (pyobj pyval) :=
  Eval vm_compute in
    class_namespace "Shape"
      [("SEGMENT", Plain (PyList [0; 1])); ("EDGE", Plain (PyList [0; 1]));
       ("POINT", Plain (PyList [0]))].

Definition Shape : enum_type pyval :=
  Eval vm_compute in
    returned (EnumMeta.__new__ 4 object___init__ "Shape" [Enum_type] Shape_dict)
             (type___new__ 4 "Shape" [Enum_type] Shape_dict).


(** [class Enum(metaclass = EnumMeta)] itself: its body binds methods only. *)
Definition object_type : pytype :=
  {| tp_id := 0; tp_name := "object"; tp_ancestors := [] |}.

Definition Enum_dict : OrderedDict (pyobj pyval) :=
  Eval vm_compute in
    exec_body "Enum" [object_type]
      [("__module__", Plain (PyStr "fastenum.fastenum"));
       ("__qualname__", Plain (PyStr "Enum"));
       ("__repr__", Plain (PyFunction "Enum.__repr__"));
       ("__str__", Plain (PyFunction "Enum.__str__"));
       ("__hash__", Plain (PyFunction "Enum.__hash__"));
       ("__format__", Plain (PyFunction "Enum.__format__"));
       ("__reduce_ex__", Plain (PyFunction "Enum.__reduce_ex__"))].

(** [class Shade(Color): DARK = 10] *)
Definition Shade_dict : OrderedDict (pyobj pyval) :=
  Eval vm_compute in
    exec_body "Shade" [cls_type Color]
      [("__module__", Plain (PyStr "__main__"));
       ("__qualname__", Plain (PyStr "Shade"));
       ("DARK", Plain (PyInt 10))].

Definition Shade : enum_type pyval :=
  Eval vm_compute in
    returned (EnumMeta.__new__ 6 object___init__ "Shade" [cls_type Color] Shade_dict)
             (type___new__ 6 "Shade" [cls_type Color] Shade_dict).

(** ** The name filter of the type-checker plugin: [mypy_plugin.py] *)

Module MypyPlugin.

(** The names under which the plugin registers.  The source holds them in
    a set; the list gives one order of iteration. *)
Definition REGISTER : list string := ["fastenum.Enum"; ".fastenum"; "Enum"].

Definition BLACKLIST : list string :=
  ["FastEnumPlugin"; "fastenum.mypy_plugin.Plugin"].

(** [r in fullname] for two strings: [r] occurs in [fullname]. *)
Fixpoint str_contains (fullname r : string) : bool :=
  String.prefix r fullname
  || match fullname with
     | EmptyString => false
     | String _ rest => str_contains rest r
     end.

(** [x in s] for a set of strings. *)
Definition set_contains (s : list string) (x : string) : bool :=
  existsb (String.eqb x) s.

(** The [for r in REGISTER] loop of [_is_fullname_supported]. *)
Fixpoint supported_loop (register : list string) (fullname : string) : bool :=
  match register with
  | [] => false
  | r :: rest =>
      if str_contains fullname r && negb (set_contains BLACKLIST fullname)
      then true
      else supported_loop rest fullname
  end.

Definition _is_fullname_supported (fullname : string) : bool :=
  supported_loop REGISTER fullname.

End MypyPlugin.

(** * Properties *)

(** ** Ordered dictionaries *)

Section OrderedDictFacts.
Context {A : Type}.
Implicit Types (d : OrderedDict A) (k : string) (a : A).

Lemma od_find_None d k : od_find d k = None <-> ~ In k (od_keys d).
Proof.
  induction d as [|[k' a'] d IH]; simpl.
  - tauto.
  - destruct (String.eqb_spec k' k) as [->|Hne].
    + split; [discriminate | intros Hn; exfalso; apply Hn; now left].
    + rewrite IH. split; [intros Hn [Heq|Hin]; tauto | tauto].
Qed.

Lemma od_setitem_fresh d k a :
  ~ In k (od_keys d) -> od_setitem d k a = (d ++ [(k, a)])%list.
Proof.
  induction d as [|[k' a'] d IH]; simpl; intros Hn.
  - reflexivity.
  - destruct (String.eqb_spec k' k) as [->|Hne].
    + exfalso. apply Hn. now left.
    + rewrite IH by tauto. reflexivity.
Qed.

Lemma od_keys_setitem_In d k a k' :
  In k' (od_keys (od_setitem d k a)) <-> In k' (od_keys d) \/ k' = k.
Proof.
  induction d as [|[k0 a0] d IH]; simpl.
  - intuition congruence.
  - destruct (String.eqb_spec k0 k) as [->|Hne]; simpl.
    + intuition congruence.
    + rewrite IH. intuition congruence.
Qed.

Lemma od_wf_setitem d k a : od_wf d -> od_wf (od_setitem d k a).
Proof.
  unfold od_wf. induction d as [|[k0 a0] d IH]; simpl; intros Hnd.
  - constructor; [intros [] | constructor].
  - inversion Hnd as [|? ? Hnotin Hnd']; subst.
    destruct (String.eqb_spec k0 k) as [->|Hne]; simpl.
    + now constructor.
    + constructor; [|now apply IH].
      change (~ In k0 (od_keys (od_setitem d k a))).
      rewrite od_keys_setitem_In. intros [Hin|Heq]; [tauto | congruence].
Qed.

Lemma fold_setitem_wf (body : list (string * A)) d :
  od_wf d -> od_wf (fold_left (fun d b => od_setitem d (fst b) (snd b)) body d).
Proof.
  revert d. induction body as [|b body IH]; simpl; intros d Hd; [exact Hd|].
  apply IH. now apply od_wf_setitem.
Qed.

Lemma fold_setitem_distinct (body : list (string * A)) d :
  NoDup (od_keys d ++ map fst body) ->
  fold_left (fun d b => od_setitem d (fst b) (snd b)) body d = (d ++ body)%list.
Proof.
  revert d. induction body as [|[k a] body IH]; simpl; intros d Hnd.
  - now rewrite app_nil_r.
  - rewrite od_setitem_fresh.
    + rewrite IH; [now rewrite <- app_assoc|].
      unfold od_keys in *. rewrite map_app. simpl. now rewrite <- app_assoc.
    + apply NoDup_remove_2 in Hnd. intros Hin. apply Hnd.
      apply in_or_app. now left.
Qed.

Lemma od_find_In d k a : od_wf d -> In (k, a) d -> od_find d k = Some a.
Proof.
  unfold od_wf. induction d as [|[k0 a0] d IH]; simpl; intros Hnd Hin.
  - contradiction.
  - inversion Hnd as [|? ? Hnotin Hnd']; subst.
    destruct Hin as [Heq|Hin].
    + inversion Heq; subst. now rewrite String.eqb_refl.
    + destruct (String.eqb_spec k0 k) as [->|Hne].
      * exfalso. apply Hnotin. change (In k (map fst d)).
        apply in_map_iff. now exists (k, a).
      * now apply IH.
Qed.

Lemma od_find_Some_In d k a : od_find d k = Some a -> In (k, a) d.
Proof.
  induction d as [|[k0 a0] d IH]; simpl; [discriminate|].
  destruct (String.eqb_spec k0 k) as [->|Hne].
  - intros [= ->]. now left.
  - intros Hf. right. now apply IH.
Qed.
End OrderedDictFacts.

(** The namespace of a class body holds each name once, and it is the body
    itself, in the order written, when the body binds each name once. *)
Lemma exec_body_wf {V : Type} cls bases (body : list (string * pyobj V)) :
  od_wf (exec_body cls bases body).
Proof. apply fold_setitem_wf. constructor. Qed.

Lemma exec_body_distinct {V : Type} cls bases (body : list (string * pyobj V)) :
  NoDup (map fst body) -> od_items (exec_body cls bases body) = body.
Proof. intros Hnd. unfold exec_body, od_items. now rewrite fold_setitem_distinct. Qed.

(** ** The construction loop, step by step *)

Section Construction.
Context {V : Type} `{PyRuntime V}.
Variable tp_init : member V -> result unit.

Lemma cls_type_add_members ms ec :
  cls_type (fold_left add_member ms ec) = cls_type ec.
Proof.
  revert ec. induction ms as [|m ms IH]; simpl; intros ec; [reflexivity|].
  now rewrite IH.
Qed.

Lemma add_member_new ec nm val :
  add_member ec (new_member (cls_type ec) nm val) =
  let member := new_member (cls_type ec) nm val in
  let ec1 :=
    set_member_map (setattr ec nm (Inst member))
      (od_setitem (_member_map_ ec) nm member) in
  match py_hash val with
  | Some h =>
      set_value_to_member_map ec1
        (dict_store (_value_to_member_map_ ec) h val member)
  | None => ec1
  end.
Proof.
  unfold add_member, index_add. simpl.
  destruct (py_hash val); reflexivity.
Qed.

Lemma new_loop_spec items ec :
  EnumMeta.new_loop tp_init items ec =
  match hook_failure tp_init (declared_members (cls_type ec) items) with
  | Some e => Raise e
  | None => Return (fold_left add_member (declared_members (cls_type ec) items) ec)
  end.
Proof.
  revert ec. induction items as [|[nm val] items IH]; intros ec.
  - reflexivity.
  - unfold declared_members. simpl EnumMeta.new_loop. simpl filter.
    change (negb (startswith nm "_") && negb (_is_descriptor val))
      with (is_member_binding (nm, val)).
    destruct (is_member_binding (nm, val)).
    + simpl map. simpl hook_failure.
      destruct (tp_init (new_member (cls_type ec) nm val)) as [[]|e];
        simpl; [|reflexivity].
      unfold dict_setitem.
      destruct (py_hash val) as [h|] eqn:Hh; simpl;
        rewrite IH; simpl cls_type; unfold declared_members;
        simpl fold_left; rewrite add_member_new, Hh; reflexivity.
    + apply IH.
Qed.

Lemma member_map_add_members ms ec :
  _member_map_ (fold_left add_member ms ec) =
  fold_left (fun mm m => od_setitem mm (name m) m) ms (_member_map_ ec).
Proof.
  revert ec. induction ms as [|m ms IH]; simpl; intros ec; [reflexivity|].
  now rewrite IH.
Qed.

Lemma value_map_add_members ms ec :
  _value_to_member_map_ (fold_left add_member ms ec) =
  fold_left index_add ms (_value_to_member_map_ ec).
Proof.
  revert ec. induction ms as [|m ms IH]; simpl; intros ec; [reflexivity|].
  now rewrite IH.
Qed.


Lemma member_map_fresh ms (mm : OrderedDict (member V)) :
  NoDup (map name ms) ->
  (forall m, In m ms -> ~ In (name m) (od_keys mm)) ->
  fold_left (fun mm m => od_setitem mm (name m) m) ms mm =
  (mm ++ map (fun m => (name m, m)) ms)%list.
Proof.
  revert mm. induction ms as [|m ms IH]; simpl; intros mm Hnd Hfresh.
  - now rewrite app_nil_r.
  - inversion Hnd as [|? ? Hnotin Hnd']; subst.
    rewrite od_setitem_fresh by (apply Hfresh; now left).
    rewrite IH; [now rewrite <- app_assoc | assumption |].
    intros m' Hin. unfold od_keys. rewrite map_app, in_app_iff. simpl.
    intros [Hk|[Hk|[]]].
    + apply (Hfresh m'); [now right | exact Hk].
    + apply Hnotin. rewrite Hk. now apply in_map.
Qed.

Lemma declared_names ty items :
  map name (declared_members ty items) =
  map fst (filter is_member_binding items).
Proof.
  unfold declared_members. rewrite map_map. reflexivity.
Qed.

Lemma NoDup_filter_keys (items : list (string * pyobj V)) f :
  NoDup (map fst items) -> NoDup (map fst (filter f items)).
Proof.
  induction items as [|b items IH]; simpl; intros Hnd; [constructor|].
  inversion Hnd as [|? ? Hnotin Hnd']; subst.
  destruct (f b); simpl; [|now apply IH].
  constructor; [|now apply IH].
  intros Hin. apply Hnotin. apply in_map_iff in Hin as [b' [Hb' Hin]].
  apply filter_In in Hin as [Hin _]. apply in_map_iff. now exists b'.
Qed.

(** What [__new__] returns, and when. *)
Lemma new_spec addr cls bases classdict :
  let ty := type_object addr cls bases in
  EnumMeta.__new__ addr tp_init cls bases classdict =
  match hook_failure tp_init (declared_members ty classdict) with
  | Some e => Raise e
  | None =>
      Return (fold_left add_member (declared_members ty classdict)
                (type___new__ addr cls bases classdict))
  end.
Proof. intros ty. unfold EnumMeta.__new__. apply new_loop_spec. Qed.

Section Built.
Variables (addr : nat) (cls : string) (bases : list pytype).
Variable classdict : OrderedDict (pyobj V).
Variable T : enum_type V.
Hypothesis Hnew : EnumMeta.__new__ addr tp_init cls bases classdict = Return T.

Lemma built_type : cls_type T = type_object addr cls bases.
Proof.
  rewrite new_spec in Hnew.
  destruct (hook_failure _ _); [discriminate|].
  injection Hnew as <-. now rewrite cls_type_add_members.
Qed.

Lemma built_name : tp_name (cls_type T) = cls.
Proof. now rewrite built_type. Qed.

Lemma built_value_map :
  _value_to_member_map_ T =
  fold_left index_add (declared_members (cls_type T) classdict) [].
Proof.
  rewrite built_type.
  rewrite new_spec in Hnew. simpl in Hnew.
  destruct (hook_failure _ _); [discriminate|].
  injection Hnew as <-. now rewrite value_map_add_members.
Qed.

Lemma built_member_map :
  od_wf classdict ->
  _member_map_ T =
  map (fun m => (name m, m)) (declared_members (cls_type T) classdict).
Proof.
  intros Hwf. rewrite built_type.
  rewrite new_spec in Hnew. simpl in Hnew.
  destruct (hook_failure _ _); [discriminate|].
  injection Hnew as <-. rewrite member_map_add_members.
  rewrite member_map_fresh; [reflexivity | | intros ? _ []].
  rewrite declared_names. now apply NoDup_filter_keys.
Qed.

Lemma built_iter :
  od_wf classdict ->
  EnumMeta.__iter__ T = declared_members (cls_type T) classdict.
Proof.
  intros Hwf. unfold EnumMeta.__iter__, od_values.
  rewrite built_member_map by assumption.
  rewrite map_map. simpl. apply map_id.
Qed.
End Built.
End Construction.

Arguments built_type {V H tp_init addr cls bases classdict T} Hnew.
Arguments built_name {V H tp_init addr cls bases classdict T} Hnew.
Arguments built_value_map {V H tp_init addr cls bases classdict T} Hnew.
Arguments built_member_map {V H tp_init addr cls bases classdict T} Hnew Hwf.
Arguments built_iter {V H tp_init addr cls bases classdict T} Hnew Hwf.

(** ** Equality of objects *)

Section ObjectLaws.
Context {V : Type} `{PyLaws V}.

Lemma member_is_sym (a b : member V) : member_is a b = true -> member_is b a = true.
Proof.
  unfold member_is. rewrite !andb_true_iff, !Nat.eqb_eq, !String.eqb_eq.
  intros [-> ->]. split; reflexivity.
Qed.

Lemma member_is_trans (a b c : member V) :
  member_is a b = true -> member_is b c = true -> member_is a c = true.
Proof.
  unfold member_is. rewrite !andb_true_iff, !Nat.eqb_eq, !String.eqb_eq.
  intros [-> ->] [-> ->]. split; reflexivity.
Qed.

Lemma py_is_eq (a b : pyobj V) : py_is a b = true -> py_eq a b = true.
Proof. destruct a, b; simpl; auto using v_is_eq. Qed.

Lemma py_eq_sym (a b : pyobj V) : py_eq a b = true -> py_eq b a = true.
Proof. destruct a, b; simpl; auto using v_eq_sym, member_is_sym. Qed.

Lemma py_eq_trans (a b c : pyobj V) :
  py_eq a b = true -> py_eq b c = true -> py_eq a c = true.
Proof.
  destruct a, b, c; simpl; try discriminate;
    eauto using v_eq_trans, member_is_trans.
Qed.

Lemma key_match_eq (e : entry V) h k :
  key_match e h k = true -> py_eq (e_key e) k = true.
Proof.
  unfold key_match. rewrite andb_true_iff, orb_true_iff.
  intros [_ [Hi|He]]; [now apply py_is_eq | exact He].
Qed.
End ObjectLaws.

(** ** The value index *)

Section IndexFacts.
Context {V : Type} `{PyRuntime V}.

Lemma dict_find_Some (d : pydict V) h k m :
  dict_find d h k = Some m ->
  exists e, In e d /\ key_match e h k = true /\ e_val e = m.
Proof.
  induction d as [|e d IH]; simpl; [discriminate|].
  destruct (key_match e h k) eqn:Hm.
  - intros [= <-]. exists e. auto.
  - intros Hf. destruct (IH Hf) as [e' [Hin Hrest]]. exists e'. auto.
Qed.

Lemma dict_find_None (d : pydict V) h k :
  dict_find d h k = None -> forall e, In e d -> key_match e h k = false.
Proof.
  induction d as [|e d IH]; simpl; [intros _ ? []|].
  destruct (key_match e h k) eqn:Hm; [discriminate|].
  intros Hf e' [<-|Hin]; auto.
Qed.

Lemma entry_ok_incl ms ms' e : incl ms ms' -> entry_ok ms e -> entry_ok ms' e.
Proof.
  intros Hi (Hv & (m0 & Hm0 & Hk) & Hrel). repeat split; auto.
  exists m0. auto.
Qed.

Lemma dict_store_ok ms (d : pydict V) h m :
  Forall (entry_ok ms) d -> In m ms ->
  Forall (entry_ok ms) (dict_store d h (value m) m).
Proof.
  intros Hd Hm. induction d as [|e d IH]; simpl.
  - constructor; [|constructor]. repeat split; simpl; auto.
    exists m. auto.
  - inversion Hd as [|? ? He Hd']; subst.
    destruct (key_match e h (value m)) eqn:Hk.
    + constructor; [|assumption].
      destruct He as (_ & Hkey & _). repeat split; simpl; auto.
      right. unfold key_match in Hk. now apply andb_true_iff in Hk.
    + constructor; auto.
Qed.

Lemma index_add_ok ms (d : pydict V) m :
  Forall (entry_ok ms) d -> In m ms -> Forall (entry_ok ms) (index_add d m).
Proof.
  intros Hd Hm. unfold index_add.
  destruct (py_hash (value m)); [now apply dict_store_ok | assumption].
Qed.

Lemma index_ok_from ms all (d : pydict V) :
  incl ms all -> Forall (entry_ok all) d ->
  Forall (entry_ok all) (fold_left index_add ms d).
Proof.
  revert d. induction ms as [|m ms IH]; simpl; intros d Hi Hd; [assumption|].
  apply IH.
  - intros x Hx. apply Hi. now right.
  - apply index_add_ok; [assumption | apply Hi; now left].
Qed.

Lemma index_ok ms : Forall (entry_ok ms) (fold_left index_add ms []).
Proof. apply index_ok_from; [apply incl_refl | constructor]. Qed.

(** Looking up the key just stored finds the member just stored. *)
Lemma dict_find_store_same (d : pydict V) h k m :
  (py_is k k || py_eq k k) = true ->
  dict_find (dict_store d h k m) h k = Some m.
Proof.
  intros Hrefl. induction d as [|e d IH]; simpl.
  - unfold key_match. simpl. now rewrite Z.eqb_refl, Hrefl.
  - destruct (key_match e h k) eqn:Hk; simpl.
    + unfold key_match in *. simpl. now rewrite Hk.
    + now rewrite Hk.
Qed.

Lemma find_first {A : Type} (f : A -> bool) l1 x l2 :
  (forall y, In y l1 -> f y = false) -> f x = true ->
  find f (l1 ++ x :: l2) = Some x.
Proof.
  intros Hl1 Hx. induction l1 as [|y l1 IH]; simpl.
  - now rewrite Hx.
  - rewrite (Hl1 y) by now left. apply IH. intros z Hz. apply Hl1. now right.
Qed.


End IndexFacts.

Section IndexLaws.
Context {V : Type} `{PyLaws V}.

(** Storing under a key that does not compare equal to the query leaves
    the outcome of the query alone. *)
Lemma dict_find_store_other (d : pydict V) h k m h' q :
  py_eq k q = false ->
  dict_find (dict_store d h k m) h' q = dict_find d h' q.
Proof.
  intros Hne. induction d as [|e d IH]; simpl.
  - destruct (key_match _ h' q) eqn:Hq; [|reflexivity].
    apply key_match_eq in Hq. simpl in Hq. congruence.
  - destruct (key_match e h k) eqn:Hk; simpl.
    + destruct (key_match e h' q) eqn:Hq.
      * apply key_match_eq in Hk, Hq.
        apply py_eq_sym in Hk.
        rewrite (py_eq_trans _ _ _ Hk Hq) in Hne. discriminate.
      * unfold key_match in *. simpl. now rewrite Hq.
    + destruct (key_match e h' q); [reflexivity | exact IH].
Qed.

Lemma index_add_other (d : pydict V) m h' q :
  py_eq (value m) q = false ->
  dict_find (index_add d m) h' q = dict_find d h' q.
Proof.
  intros Hne. unfold index_add.
  destruct (py_hash (value m)); [now apply dict_find_store_other | reflexivity].
Qed.

Lemma index_fold_other ms (d : pydict V) h' q :
  (forall m, In m ms -> py_eq (value m) q = false) ->
  dict_find (fold_left index_add ms d) h' q = dict_find d h' q.
Proof.
  revert d. induction ms as [|m ms IH]; simpl; intros d Hall; [reflexivity|].
  rewrite IH by (intros; apply Hall; now right).
  apply index_add_other. apply Hall. now left.
Qed.

(** Keys that compare equal and hash alike are the same key to the index. *)
Lemma dict_find_congr (d : pydict V) h k q :
  py_eq k q = true -> dict_find d h k = dict_find d h q.
Proof.
  intros He.
  assert (Hkm : forall e, key_match e h k = key_match e h q).
  { intros e. destruct (key_match e h k) eqn:Hk, (key_match e h q) eqn:Hq;
      try reflexivity; exfalso.
    - pose proof (key_match_eq _ _ _ Hk) as Hek.
      pose proof (py_eq_trans _ _ _ Hek He) as Heq.
      unfold key_match in Hk, Hq. apply andb_true_iff in Hk as [Hh _].
      rewrite Hh, Heq, orb_true_r in Hq. discriminate.
    - pose proof (key_match_eq _ _ _ Hq) as Heq.
      pose proof (py_eq_trans _ _ _ Heq (py_eq_sym _ _ He)) as Hek.
      unfold key_match in Hk, Hq. apply andb_true_iff in Hq as [Hh _].
      rewrite Hh, Hek, orb_true_r in Hk. discriminate. }
  induction d as [|e d IH]; simpl; [reflexivity|].
  rewrite Hkm, IH. reflexivity.
Qed.
End IndexLaws.

(** ** What a finished enumeration type contains *)

Section Finished.
Context {V : Type} `{PyRuntime V}.
Variable tp_init : member V -> result unit.
Variables (addr : nat) (cls : string) (bases : list pytype).
Variable classdict : OrderedDict (pyobj V).
Variable T : enum_type V.
Hypothesis Hnew : EnumMeta.__new__ addr tp_init cls bases classdict = Return T.

Lemma od_values_setitem_In {A : Type} (d : OrderedDict A) k a x :
  In x (od_values (od_setitem d k a)) -> x = a \/ In x (od_values d).
Proof.
  induction d as [|[k0 a0] d IH]; simpl.
  - intros [<-|[]]. now left.
  - destruct (String.eqb_spec k0 k) as [->|Hne]; simpl.
    + intros [<-|Hin]; auto.
    + intros [<-|Hin]; auto. destruct (IH Hin); auto.
Qed.

Lemma member_map_values_In ms (mm : OrderedDict (member V)) m :
  In m (od_values (fold_left (fun mm m => od_setitem mm (name m) m) ms mm)) ->
  In m ms \/ In m (od_values mm).
Proof.
  revert mm. induction ms as [|m0 ms IH]; simpl; intros mm Hin; [now right|].
  destruct (IH _ Hin) as [Hms|Hmm]; [left; now right|].
  apply od_values_setitem_In in Hmm as [->|Hmm]; auto.
Qed.

(** Every member the type iterates over was made from a binding of the
    class body that passed the test of the loop. *)
Lemma iter_declared m :
  In m (EnumMeta.__iter__ T) -> In m (declared_members (cls_type T) classdict).
Proof.
  rewrite (built_type Hnew).
  pose proof Hnew as Hn. rewrite new_spec in Hn. simpl in Hn.
  destruct (hook_failure _ _); [discriminate|].
  injection Hn as <-. unfold EnumMeta.__iter__.
  rewrite member_map_add_members. intros Hin.
  apply member_map_values_In in Hin as [Hin|[]]. exact Hin.
Qed.

Lemma declared_binding ty items m :
  In m (declared_members ty items) ->
  exists nm val, In (nm, val) items /\ is_member_binding (nm, val) = true
                 /\ m = new_member ty nm val.
Proof.
  unfold declared_members. rewrite in_map_iff.
  intros [[nm val] [<- Hin]]. apply filter_In in Hin as [Hin Hk].
  exists nm, val. auto.
Qed.

Lemma binding_declared ty items nm val :
  In (nm, val) items -> is_member_binding (nm, val) = true ->
  In (new_member ty nm val) (declared_members ty items).
Proof.
  intros Hin Hk. unfold declared_members. apply in_map_iff.
  exists (nm, val). split; [reflexivity|]. apply filter_In. auto.
Qed.

Lemma kept_names (items : list (string * pyobj V)) :
  map fst (filter is_member_binding items) =
  filter (fun n => negb (startswith n "_"))
    (map fst (filter (fun b => negb (_is_descriptor (snd b))) items)).
Proof.
  induction items as [|[nm val] items IH]; simpl; [reflexivity|].
  unfold is_member_binding at 1. simpl.
  destruct (_is_descriptor val); simpl.
  - rewrite andb_false_r. apply IH.
  - rewrite andb_true_r.
    destruct (startswith nm "_"); simpl; [apply IH | f_equal; apply IH].
Qed.

Lemma iter_class m : In m (EnumMeta.__iter__ T) -> m_class m = cls_type T.
Proof.
  intros Hin. apply iter_declared, declared_binding in Hin.
  destruct Hin as (nm & val & _ & _ & ->). reflexivity.
Qed.

Lemma member_map_wf : od_wf classdict -> od_wf (_member_map_ T).
Proof.
  intros Hwf. rewrite (built_member_map Hnew Hwf).
  unfold od_wf, od_keys. rewrite map_map. simpl.
  rewrite declared_names. now apply NoDup_filter_keys.
Qed.

Lemma getitem_declared nm val :
od_wf classdict ->
In (nm, val) (od_items classdict) ->
is_member_binding (nm, val) = true ->
EnumMeta.__getitem__ T nm = Return (new_member (cls_type T) nm val).
Proof.
intros Hwf Hin Hk. unfold EnumMeta.__getitem__, od_getitem.
rewrite (@od_find_In _ (_member_map_ T) nm (new_member (cls_type T) nm val));
  [reflexivity | now apply member_map_wf |].
rewrite (built_member_map Hnew Hwf). apply in_map_iff.
exists (new_member (cls_type T) nm val). split; [reflexivity|].
now apply binding_declared.
Qed.

Lemma value_map_ok :
  od_wf classdict ->
  Forall (entry_ok (EnumMeta.__iter__ T)) (_value_to_member_map_ T).
Proof.
  intros Hwf. rewrite (built_iter Hnew Hwf), (built_value_map Hnew).
  apply index_ok.
Qed.
End Finished.

Arguments iter_declared {V H tp_init addr cls bases classdict T} Hnew {m} _.
Arguments iter_class {V H tp_init addr cls bases classdict T} Hnew {m} _.
Arguments member_map_wf {V H tp_init addr cls bases classdict T} Hnew _.
Arguments value_map_ok {V H tp_init addr cls bases classdict T} Hnew _.
Arguments getitem_declared {V H tp_init addr cls bases classdict T} Hnew nm val _ _ _.

(** * The query surface *)

Section Queries.
Context {V : Type} `{PyRuntime V}.
Variable tp_init : member V -> result unit.
Variables (addr : nat) (cls : string) (bases : list pytype).
Variable classdict : OrderedDict (pyobj V).
Variable T : enum_type V.
Hypothesis Hnew : EnumMeta.__new__ addr tp_init cls bases classdict = Return T.

(** C2: coercion is idempotent.  Applied to one of its own members, the
    type returns that very member: [T(m) is m]. *)
Theorem call_member_idempotent (m : member V) :
  In m (EnumMeta.__iter__ T) ->
  EnumMeta.__call__ T (Inst m) = Return (Inst m).
Proof.
  intros Hin. unfold EnumMeta.__call__, isinstance.
  rewrite (iter_class Hnew Hin), Nat.eqb_refl. reflexivity.
Qed.

(** C4: lookup by name is exact.  [T[n]] is the member made from the
    binding declared under exactly the name [n], and it raises
    [KeyError] when no member was declared under that name; a member
    that is returned always carries the name asked for. *)
Theorem getitem_exact_name (n : string) :
  od_wf classdict ->
  (forall val, In (n, val) (od_items classdict) ->
     is_member_binding (n, val) = true ->
     EnumMeta.__getitem__ T n = Return (new_member (cls_type T) n val))
  /\ ((forall val, In (n, val) (od_items classdict) ->
         is_member_binding (n, val) = false) ->
      EnumMeta.__getitem__ T n = Raise (KeyError n))
  /\ (forall m, EnumMeta.__getitem__ T n = Return m ->
        name m = n /\ In m (EnumMeta.__iter__ T)).
Proof.
  intros Hwf. unfold EnumMeta.__getitem__, od_getitem.
  pose proof (member_map_wf Hnew Hwf) as Hmwf.
  pose proof (built_member_map Hnew Hwf) as Hmm.
  split; [|split].
  - intros val Hin Hk.
    exact (getitem_declared Hnew n val Hwf Hin Hk).
  - intros Hskip.
    destruct (od_find (_member_map_ T) n) as [m|] eqn:Hf; [|reflexivity].
    exfalso. apply od_find_Some_In in Hf. rewrite Hmm in Hf.
    apply in_map_iff in Hf as [m' [Heq Hin]]. inversion Heq; subst.
    apply declared_binding in Hin as (nm & val & Hin & Hk & ->).
    simpl in Hskip. rewrite (Hskip val Hin) in Hk. discriminate.
  - intros m. destruct (od_find (_member_map_ T) n) as [m'|] eqn:Hf;
      [|discriminate].
    intros [= ->]. pose proof (od_find_Some_In _ _ Hf) as Hin.
    split.
    + rewrite Hmm in Hin. apply in_map_iff in Hin as [m' [Heq _]].
      now inversion Heq.
    + unfold EnumMeta.__iter__, od_values. apply in_map_iff.
      now exists (n, m).
Qed.

(** C5: iteration follows declaration order.  [list(T)] is the members
    made from the member bindings of the class body, in the order of the
    body, and [list(reversed(T))] is [list(reversed(list(T)))]. *)
Theorem iter_declaration_order :
  od_wf classdict ->
  EnumMeta.__iter__ T =
    map (fun b => new_member (cls_type T) (fst b) (snd b))
        (filter is_member_binding (od_items classdict))
  /\ map name (EnumMeta.__iter__ T) =
     filter (fun n => negb (startswith n "_"))
       (map fst (filter (fun b => negb (_is_descriptor (snd b)))
                   (od_items classdict)))
  /\ EnumMeta.__reversed__ T = rev (EnumMeta.__iter__ T).
Proof.
  intros Hwf. rewrite (built_iter Hnew Hwf). split; [reflexivity|].
  split; [|unfold EnumMeta.__reversed__; now rewrite (built_iter Hnew Hwf)].
  rewrite declared_names. apply kept_names.
Qed.

(** C7: the hash of a member is the hash of its name.  It is computed
    from the name alone when the member is made, so it does not depend
    on the value, and two members have the same hash exactly when their
    names hash alike, whatever their values. *)
Theorem member_hash_is_name_hash (m : member V) :
  In m (EnumMeta.__iter__ T) ->
  Enum.__hash__ m = str_hash (name m)
  /\ py_hash (Inst m) = Some (str_hash (name m))
  /\ (forall val, Enum.__hash__ (new_member (cls_type T) (name m) val)
                  = Enum.__hash__ m)
  /\ (forall m', In m' (EnumMeta.__iter__ T) ->
        Z.eqb (Enum.__hash__ m) (Enum.__hash__ m')
        = Z.eqb (str_hash (name m)) (str_hash (name m'))).
Proof.
  assert (Hh : forall x, In x (EnumMeta.__iter__ T) ->
                         Enum.__hash__ x = str_hash (name x)).
  { intros x Hx. apply (iter_declared Hnew), declared_binding in Hx.
    destruct Hx as (nm & val & _ & _ & ->). reflexivity. }
  intros Hin. split; [now apply Hh|]. split; [simpl; now rewrite Hh|].
  split; [intros val; now rewrite (Hh m Hin)|].
  intros m' Hm'. now rewrite (Hh m Hin), (Hh m' Hm').
Qed.

(** C8: which bindings become members.  A binding of the class body
    becomes a member exactly when its name does not start with an
    underscore and its value has none of [__get__], [__set__],
    [__delete__]; the members are these bindings, names and values, in
    order; every slot of the value index holds one of them, under a key
    that is the value of one of them; a skipped binding is in neither
    index; [len(T)] counts the bindings kept. *)
Theorem members_are_kept_bindings :
  od_wf classdict ->
  (forall nm val,
     is_member_binding (nm, val) =
     negb (String.prefix "_" nm)
     && negb (hasattr val "__get__" || hasattr val "__set__"
              || hasattr val "__delete__"))
  /\ map (fun m => (name m, value m)) (EnumMeta.__iter__ T) =
     filter is_member_binding (od_items classdict)
  /\ od_keys (_member_map_ T) =
     map fst (filter is_member_binding (od_items classdict))
  /\ Forall (fun e => In (e_val e) (EnumMeta.__iter__ T)
                       /\ exists m, In m (EnumMeta.__iter__ T)
                                    /\ e_key e = value m)
       (_value_to_member_map_ T)
  /\ (forall nm val, In (nm, val) (od_items classdict) ->
        is_member_binding (nm, val) = false ->
        od_find (_member_map_ T) nm = None
        /\ (forall m, In m (EnumMeta.__iter__ T) -> name m <> nm)
        /\ (forall e, In e (_value_to_member_map_ T) -> name (e_val e) <> nm))
  /\ EnumMeta.__len__ T =
     List.length (filter is_member_binding (od_items classdict)).
Proof.
  intros Hwf.
  pose proof (built_member_map Hnew Hwf) as Hmm.
  pose proof (built_iter Hnew Hwf) as Hit.
  assert (Hnames : forall m nm val, In m (EnumMeta.__iter__ T) ->
            In (nm, val) (od_items classdict) ->
            is_member_binding (nm, val) = false -> name m <> nm).
  { intros m nm val Hm Hin Hskip Heq. rewrite Hit in Hm.
    apply declared_binding in Hm as (nm' & val' & Hin' & Hk & ->).
    simpl in Heq. subst nm'.
    pose proof (od_find_In _ _ Hwf Hin) as F1.
    pose proof (od_find_In _ _ Hwf Hin') as F2.
    rewrite F1 in F2. injection F2 as ->. congruence. }
  assert (Hidx : Forall (fun e => In (e_val e) (EnumMeta.__iter__ T))
                   (_value_to_member_map_ T)).
  { eapply Forall_impl; [|apply (value_map_ok Hnew Hwf)].
    intros e (Hv & _). exact Hv. }
  split; [reflexivity|]. split; [|split; [|split; [|split]]].
  - rewrite Hit. unfold declared_members. rewrite map_map. simpl.
    etransitivity; [|apply map_id]. apply map_ext. now intros [].
  - rewrite Hmm. unfold od_keys. rewrite map_map. simpl.
    apply declared_names.
  - eapply Forall_impl; [|apply (value_map_ok Hnew Hwf)].
    intros e (Hv & Hkey & _). split; assumption.
  - intros nm val Hin Hskip. split; [|split].
    + apply od_find_None. intros Hk. unfold od_keys in Hk.
      apply in_map_iff in Hk as [[k m] [Hfst Hkm]]. simpl in Hfst. subst k.
      assert (Hm : In m (EnumMeta.__iter__ T)).
      { unfold EnumMeta.__iter__, od_values. apply in_map_iff.
        now exists (nm, m). }
      rewrite Hmm in Hkm. apply in_map_iff in Hkm as [m' [Heq _]].
      inversion Heq; subst. now apply (Hnames m (name m) val).
    + intros m Hm. now apply (Hnames m nm val).
    + intros e He. rewrite Forall_forall in Hidx.
      now apply (Hnames (e_val e) nm val); [apply Hidx| |].
  - unfold EnumMeta.__len__, od_len. rewrite Hmm.
    unfold declared_members. now rewrite !length_map.
Qed.
End Queries.

(** * Construction and its failures *)

Section Hooks.
Context {V : Type} `{PyRuntime V}.
Variable tp_init : member V -> result unit.
Variables (addr : nat) (cls : string) (bases : list pytype).




Lemma declared_members_app ty (l1 l2 : list (string * pyobj V)) :
  declared_members ty (l1 ++ l2) =
  (declared_members ty l1 ++ declared_members ty l2)%list.
Proof. unfold declared_members. now rewrite filter_app, map_app. Qed.

End Hooks.

(** * Conversion by value *)

Section ByValue.
Context {V : Type} `{PyLaws V}.
Variable tp_init : member V -> result unit.
Variables (addr : nat) (cls : string) (bases : list pytype).
Variable classdict : OrderedDict (pyobj V).
Variable T : enum_type V.
Hypothesis Hwf : od_wf classdict.
Hypothesis Hnew : EnumMeta.__new__ addr tp_init cls bases classdict = Return T.

(** A hit in the value index is a member whose value compares equal to
    the query. *)
Lemma index_hit_equal h v m :
  dict_find (_value_to_member_map_ T) h v = Some m ->
  In m (EnumMeta.__iter__ T) /\ py_eq (value m) v = true.
Proof.
  intros Hf. apply dict_find_Some in Hf as (e & Hin & Hk & <-).
  pose proof (value_map_ok Hnew Hwf) as Hok. rewrite Forall_forall in Hok.
  destruct (Hok e Hin) as (Hv & _ & Hrel). split; [exact Hv|].
  apply key_match_eq in Hk.
  destruct Hrel as [Heq|Hrel].
  - now rewrite <- Heq.
  - assert (He : py_eq (e_key e) (value (e_val e)) = true).
    { apply orb_true_iff in Hrel as [Hi|He]; [now apply py_is_eq | exact He]. }
    apply py_eq_sym in He. exact (py_eq_trans _ _ _ He Hk).
Qed.


End ByValue.

(** * Members that share a value *)

Section LinearSearch.
Context {V : Type} `{PyRuntime V}.
Variable tp_init : member V -> result unit.
Variables (addr : nat) (cls : string) (bases : list pytype).
Variable classdict : OrderedDict (pyobj V).
Variable T : enum_type V.
Hypothesis Hwf : od_wf classdict.
Hypothesis Hnew : EnumMeta.__new__ addr tp_init cls bases classdict = Return T.

(** C10: the linear search keeps the first match.  When the index does
    not answer, because the query is unhashable or because no slot holds
    it, [T(v)] is the member made from the first binding of the class
    body, in declaration order, whose value compares equal to [v]. *)
Theorem fallback_first_declared l1 nm val l2 (v : pyobj V) :
  od_items classdict = (l1 ++ (nm, val) :: l2)%list ->
  is_member_binding (nm, val) = true ->
  isinstance v (cls_type T) = false ->
  (py_hash v = None
   \/ exists h, py_hash v = Some h
                /\ dict_find (_value_to_member_map_ T) h v = None) ->
  (forall b, In b l1 -> is_member_binding b = true -> py_eq (snd b) v = false) ->
  py_eq val v = true ->
  EnumMeta.__call__ T v = Return (Inst (new_member (cls_type T) nm val)).
Proof.
  intros Hsplit Hk Hinst Hmiss Hl1 Heq.
  assert (Hscan : EnumMeta.long_search (EnumMeta.__iter__ T) v
                  = Some (new_member (cls_type T) nm val)).
  { rewrite (built_iter Hnew Hwf). unfold od_items in Hsplit.
    rewrite Hsplit, declared_members_app.
    unfold declared_members at 2. simpl filter. rewrite Hk. simpl map.
    unfold EnumMeta.long_search. apply find_first; [|exact Heq].
    intros m Hm. apply declared_binding in Hm as (n' & v' & Hin & Hk' & ->).
    exact (Hl1 (n', v') Hin Hk'). }
  unfold EnumMeta.__call__. rewrite Hinst. unfold dict_getitem.
  fold (EnumMeta.__iter__ T).
  destruct Hmiss as [Hh|(h & Hh & Hf)]; rewrite Hh; [|rewrite Hf];
    simpl; now rewrite Hscan.
Qed.
End LinearSearch.

Section LastWriter.
Context {V : Type} `{PyLaws V}.
Variable tp_init : member V -> result unit.
Variables (addr : nat) (cls : string) (bases : list pytype).
Variable classdict : OrderedDict (pyobj V).
Variable T : enum_type V.
Hypothesis Hwf : od_wf classdict.
Hypothesis Hnew : EnumMeta.__new__ addr tp_init cls bases classdict = Return T.

Lemma fold_index_app (l1 l2 : list (member V)) (d : pydict V) :
  fold_left index_add (l1 ++ l2) d = fold_left index_add l2 (fold_left index_add l1 d).
Proof. apply fold_left_app. Qed.

(** The index answers a hashable query with the last member declared
    whose value compares equal to it, provided that member is hashable
    under the same hash. *)
Lemma index_last_declared l1 nm val l3 h (v : pyobj V) :
  od_items classdict = (l1 ++ (nm, val) :: l3)%list ->
  is_member_binding (nm, val) = true ->
  py_hash val = Some h ->
  py_eq val v = true ->
  (forall x, In x l3 -> is_member_binding x = true -> py_eq (snd x) v = false) ->
  dict_find (_value_to_member_map_ T) h v = Some (new_member (cls_type T) nm val).
Proof.
  intros Hsplit Hk Hh Heq Hl3.
  rewrite (built_value_map Hnew). unfold od_items in Hsplit.
  rewrite Hsplit, declared_members_app.
  unfold declared_members at 2. simpl filter. rewrite Hk. simpl map.
  rewrite fold_index_app. simpl fold_left.
  rewrite index_fold_other.
  - unfold index_add at 1. simpl value. rewrite Hh.
    rewrite <- (dict_find_congr _ h _ _ Heq).
    apply dict_find_store_same.
    rewrite (py_eq_trans _ _ _ Heq (py_eq_sym _ _ Heq)). apply orb_true_r.
  - intros m Hm. apply declared_binding in Hm as (n' & v' & Hin & Hk' & ->).
    exact (Hl3 (n', v') Hin Hk').
Qed.

(** C6: duplicate values.  When [A] is declared before [B] with equal
    hashable values, and no member declared after [B] has that value,
    converting the value yields [B], the last one declared, while [A] is
    still what lookup by its name returns, is still iterated over, is a
    different object from [B] and carries the hash of its own name. *)
Theorem duplicate_value_last_wins l1 a va l2 b vb l3 h :
  od_items classdict = (l1 ++ (a, va) :: l2 ++ (b, vb) :: l3)%list ->
  is_member_binding (a, va) = true ->
  is_member_binding (b, vb) = true ->
  py_eq va vb = true ->
  py_hash va = Some h ->
  py_hash vb = Some h ->
  (forall x, In x l3 -> is_member_binding x = true -> py_eq (snd x) vb = false) ->
  isinstance va (cls_type T) = false ->
  isinstance vb (cls_type T) = false ->
  let A := new_member (cls_type T) a va in
  let B := new_member (cls_type T) b vb in
  EnumMeta.__call__ T va = Return (Inst B)
  /\ EnumMeta.__call__ T vb = Return (Inst B)
  /\ EnumMeta.__getitem__ T a = Return A
  /\ EnumMeta.__getitem__ T b = Return B
  /\ In A (EnumMeta.__iter__ T)
  /\ py_is (Inst A) (Inst B) = false
  /\ A <> B
  /\ Enum.__hash__ A = str_hash a
  /\ Enum.__hash__ B = str_hash b.
Proof.
  intros Hsplit Hka Hkb Heq Hha Hhb Hl3 Hia Hib A B.
  assert (Hba : py_eq vb va = true) by now apply py_eq_sym.
  assert (Hbb : py_eq vb vb = true) by exact (py_eq_trans _ _ _ Hba Heq).
  assert (Hsplit' : od_items classdict
                    = ((l1 ++ (a, va) :: l2) ++ (b, vb) :: l3)%list).
  { rewrite Hsplit, <- app_assoc. reflexivity. }
  assert (Hl3' : forall q, py_eq vb q = true -> forall x, In x l3 ->
                   is_member_binding x = true -> py_eq (snd x) q = false).
  { intros q Hq x Hx Hkx. destruct (py_eq (snd x) q) eqn:Hxq; [|reflexivity].
    rewrite <- (Hl3 x Hx Hkx). symmetry.
    exact (py_eq_trans _ _ _ Hxq (py_eq_sym _ _ Hq)). }
  assert (Hcall : forall q, py_eq vb q = true -> py_hash q = Some h ->
                    isinstance q (cls_type T) = false ->
                    EnumMeta.__call__ T q = Return (Inst B)).
  { intros q Hq Hhq Hiq. unfold EnumMeta.__call__, dict_getitem.
    rewrite Hiq, Hhq.
    now rewrite (@index_last_declared _ _ _ _ _ _ Hsplit' Hkb Hhb Hq (Hl3' q Hq)). }
  assert (Hina : In (a, va) (od_items classdict)).
  { rewrite Hsplit. apply in_or_app. right. now left. }
  assert (Hinb : In (b, vb) (od_items classdict)).
  { rewrite Hsplit'. apply in_or_app. right. now left. }
  assert (Hab : a <> b).
  { intros ->. unfold od_wf, od_keys in Hwf. unfold od_items in Hsplit.
    rewrite Hsplit, map_app in Hwf. simpl in Hwf.
    apply NoDup_remove_2 in Hwf. apply Hwf.
    apply in_or_app. right. rewrite map_app. apply in_or_app. right. now left. }
  repeat split.
  - now apply Hcall.
  - now apply Hcall.
  - exact (getitem_declared Hnew a va Hwf Hina Hka).
  - exact (getitem_declared Hnew b vb Hwf Hinb Hkb).
  - rewrite (built_iter Hnew Hwf). now apply binding_declared.
  - simpl. unfold member_is. simpl. rewrite Nat.eqb_refl. simpl.
    now apply String.eqb_neq.
  - intros Heq'. apply Hab. now injection Heq'.
Qed.
End LastWriter.

(** * The concrete runtime and the scenarios of the specification *)

Lemma pyval_eqb_eq (a b : pyval) : pyval_eqb a b = true <-> a = b.
Proof.
  destruct a, b; simpl; try (split; [discriminate | congruence]).
  - rewrite Z.eqb_eq. split; congruence.
  - rewrite String.eqb_eq. split; congruence.
  - destruct (list_eq_dec Z.eq_dec items items0); split; congruence.
  - rewrite String.eqb_eq. split; congruence.
Qed.

#[export] Instance pyval_laws : PyLaws pyval.
Proof.
  split; simpl.
  - auto.
  - intros a b. rewrite !pyval_eqb_eq. congruence.
  - intros a b c. rewrite !pyval_eqb_eq. congruence.
Qed.

Lemma Color_new :
  EnumMeta.__new__ 2 object___init__ "Color" [Enum_type] Color_dict = Return Color.
Proof. reflexivity. Qed.

Lemma Flags_new :
  EnumMeta.__new__ 3 object___init__ "Flags" [Enum_type] Flags_dict = Return Flags.
Proof. reflexivity. Qed.

Lemma Shape_new :
  EnumMeta.__new__ 4 object___init__ "Shape" [Enum_type] Shape_dict = Return Shape.
Proof. reflexivity. Qed.

Ltac distinct_keys :=
  unfold od_wf; simpl;
  repeat (constructor; [simpl; intuition discriminate|]); constructor.

Lemma Color_dict_wf : od_wf Color_dict.
Proof. distinct_keys. Qed.

Lemma Flags_dict_wf : od_wf Flags_dict.
Proof. distinct_keys. Qed.

Lemma Shape_dict_wf : od_wf Shape_dict.
Proof. distinct_keys. Qed.

(** The [Color] scenario: [len(Color) == 3], [Color(2) is Color['GREEN']],
    [list(Color) == [Color.RED, Color.GREEN, Color.BLUE]], [Color(5)] and
    [Color['YELLOW']] raise, and names are case-sensitive. *)
Example Color_scenario :
  EnumMeta.__len__ Color = 3%nat
  /\ EnumMeta.__call__ Color (Plain (PyInt 2)) = Return (Inst Color_GREEN)
  /\ EnumMeta.__getitem__ Color "GREEN" = Return Color_GREEN
  /\ map name (EnumMeta.__iter__ Color) = ["RED"; "GREEN"; "BLUE"]
  /\ class_getattr Color "GREEN" = Some (Inst Color_GREEN)
  /\ EnumMeta.__call__ Color (Plain (PyInt 5))
     = Raise (ValueError "5 is not a valid Color")
  /\ EnumMeta.__getitem__ Color "YELLOW" = Raise (KeyError "YELLOW")
  /\ EnumMeta.__getitem__ Color "green" = Raise (KeyError "green").
Proof. repeat split. Qed.

(** [Shape] holds unhashable values: nothing is indexed, and the value of
    [POINT] is still converted. *)
Example Shape_unhashable_value :
  _value_to_member_map_ Shape = []
  /\ EnumMeta.__call__ Shape (Plain (PyList [0]))
     = Return (Inst (new_member (cls_type Shape) "POINT" (Plain (PyList [0])))).
Proof. split; reflexivity. Qed.

(** The [Flags] scenario: [Flags(1) is Flags.B], while [Flags.A] is still
    found by name, is another object and hashes as its own name does. *)
Example Flags_scenario :
  let A := new_member (cls_type Flags) "A" (Plain (PyInt 1)) in
  let B := new_member (cls_type Flags) "B" (Plain (PyInt 1)) in
  EnumMeta.__call__ Flags (Plain (PyInt 1)) = Return (Inst B)
  /\ EnumMeta.__getitem__ Flags "A" = Return A
  /\ class_getattr Flags "A" = Some (Inst A)
  /\ EnumMeta.__iter__ Flags = [A; B]
  /\ py_is (Inst A) (Inst B) = false
  /\ Z.eqb (Enum.__hash__ A) (Enum.__hash__ B) = false.
Proof. repeat split. Qed.


Lemma call_member_idempotent_witness :
  EnumMeta.__call__ Color (Inst Color_GREEN) = Return (Inst Color_GREEN).
Proof.
  apply (call_member_idempotent object___init__ 2 "Color" [Enum_type]
           Color_dict Color_new).
  simpl. right. left. reflexivity.
Defined.


Lemma getitem_exact_name_witness :
  EnumMeta.__getitem__ Color "GREEN" = Return Color_GREEN
  /\ EnumMeta.__getitem__ Color "green" = Raise (KeyError "green").
Proof.
  split.
  - apply (proj1 (getitem_exact_name object___init__ 2 "Color" [Enum_type]
                    Color_new "GREEN" Color_dict_wf) (Plain (PyInt 2))).
    + simpl. do 3 right. left. reflexivity.
    + reflexivity.
  - apply (proj1 (proj2 (getitem_exact_name object___init__ 2 "Color"
                           [Enum_type] Color_new "green" Color_dict_wf))).
    intros val Hin. simpl in Hin.
    repeat (destruct Hin as [Hin|Hin]; [discriminate Hin|]). destruct Hin.
Defined.

Lemma iter_declaration_order_witness :
  map name (EnumMeta.__iter__ Color) = ["RED"; "GREEN"; "BLUE"]
  /\ map name (EnumMeta.__reversed__ Color) = ["BLUE"; "GREEN"; "RED"].
Proof.
  destruct (iter_declaration_order object___init__ 2 "Color" [Enum_type]
              Color_new Color_dict_wf) as (_ & Hnames & Hrev).
  split.
  - rewrite Hnames. reflexivity.
  - rewrite Hrev, map_rev.
    etransitivity; [apply f_equal; exact Hnames | reflexivity].
Defined.

Lemma duplicate_value_last_wins_witness :
  let A := new_member (cls_type Flags) "A" (Plain (PyInt 1)) in
  let B := new_member (cls_type Flags) "B" (Plain (PyInt 1)) in
  EnumMeta.__call__ Flags (Plain (PyInt 1)) = Return (Inst B)
  /\ EnumMeta.__getitem__ Flags "A" = Return A
  /\ A <> B
  /\ Enum.__hash__ A = str_hash "A".
Proof.
  intros A B.
  destruct (duplicate_value_last_wins object___init__ 3 "Flags" [Enum_type]
              Flags_dict_wf Flags_new
              [("__module__", Plain (PyStr "__main__"));
               ("__qualname__", Plain (PyStr "Flags"))]
              "A" (Plain (PyInt 1)) [] "B" (Plain (PyInt 1)) [] (h := 1))
    as (Hva & _ & Hga & _ & _ & _ & Hne & Hha & _);
    try reflexivity.
  - intros x [].
  - repeat split; assumption.
Defined.

Lemma member_hash_is_name_hash_witness :
  Enum.__hash__ Color_GREEN = str_hash "GREEN".
Proof.
  apply (member_hash_is_name_hash object___init__ 2 "Color" [Enum_type]
           Color_dict Color_new Color_GREEN).
  simpl. right. left. reflexivity.
Defined.

Lemma members_are_kept_bindings_witness :
  map (fun m => (name m, value m)) (EnumMeta.__iter__ Color)
  = [("RED", Plain (PyInt 1)); ("GREEN", Plain (PyInt 2));
     ("BLUE", Plain (PyInt 3))]
  /\ EnumMeta.__len__ Color = 3%nat.
Proof.
  destruct (members_are_kept_bindings object___init__ 2 "Color" [Enum_type]
              Color_new Color_dict_wf) as (_ & Hm & _ & _ & _ & Hlen).
  split.
  - rewrite Hm. reflexivity.
  - rewrite Hlen. reflexivity.
Defined.


Lemma fallback_first_declared_witness :
  EnumMeta.__call__ Shape (Plain (PyList [0; 1]))
  = Return (Inst (new_member (cls_type Shape) "SEGMENT" (Plain (PyList [0; 1])))).
Proof.
  apply (fallback_first_declared object___init__ 4 "Shape" [Enum_type]
           Shape_dict_wf Shape_new
           [("__module__", Plain (PyStr "__main__"));
            ("__qualname__", Plain (PyStr "Shape"))]
           "SEGMENT" (Plain (PyList [0; 1]))
           [("EDGE", Plain (PyList [0; 1])); ("POINT", Plain (PyList [0]))]).
  - reflexivity.
  - reflexivity.
  - reflexivity.
  - left. reflexivity.
  - intros b [<-|[<-|[]]]; discriminate.
  - reflexivity.
Defined.

(** * Further properties of the enumeration engine *)

Lemma string_append_assoc (a b c : string) : (a ++ b) ++ c = a ++ b ++ c.
Proof. induction a as [|x a IH]; simpl; [reflexivity | now rewrite IH]. Qed.

(** ** The name index and the class attributes *)

Section NameIndex.
Context {V : Type} `{PyRuntime V}.



Lemma od_setitem_keyed (d : OrderedDict (member V)) (m : member V) :
  Forall (fun p => fst p = name (snd p)) d ->
  Forall (fun p => fst p = name (snd p)) (od_setitem d (name m) m).
Proof.
  induction d as [|[k0 a0] d IH]; simpl; intros Hd.
  - constructor; [reflexivity | constructor].
  - inversion Hd as [|? ? Hk Hd']; subst.
    destruct (String.eqb_spec k0 (name m)) as [->|Hne].
    + constructor; [reflexivity | assumption].
    + constructor; [assumption | now apply IH].
Qed.

Lemma member_map_fold_keyed ms (mm : OrderedDict (member V)) :
  Forall (fun p => fst p = name (snd p)) mm -> od_wf mm ->
  Forall (fun p => fst p = name (snd p))
    (fold_left (fun mm m => od_setitem mm (name m) m) ms mm)
  /\ od_wf (fold_left (fun mm m => od_setitem mm (name m) m) ms mm).
Proof.
  revert mm. induction ms as [|m ms IH]; simpl; intros mm Hk Hwf; [auto|].
  apply IH; [now apply od_setitem_keyed | now apply od_wf_setitem].
Qed.


Lemma append_inv_head (s a b : string) : s ++ a = s ++ b -> a = b.
Proof. induction s as [|c s IH]; simpl; [auto|]. intros [= Heq]. auto. Qed.

Variable tp_init : member V -> result unit.
Variables (addr : nat) (cls : string) (bases : list pytype).
Variable classdict : OrderedDict (pyobj V).
Variable T : enum_type V.
Hypothesis Hnew : EnumMeta.__new__ addr tp_init cls bases classdict = Return T.

Lemma member_map_keyed :
  Forall (fun p => fst p = name (snd p)) (_member_map_ T) /\ od_wf (_member_map_ T).
Proof.
  pose proof Hnew as Hn. rewrite new_spec in Hn. simpl in Hn.
  destruct (hook_failure _ _); [discriminate|]. injection Hn as <-.
  rewrite member_map_add_members. apply member_map_fold_keyed; constructor.
Qed.

Lemma iter_names_keys : map name (EnumMeta.__iter__ T) = od_keys (_member_map_ T).
Proof.
  destruct member_map_keyed as [Hk _]. unfold EnumMeta.__iter__, od_values, od_keys.
  rewrite map_map. apply map_ext_in. intros p Hp.
  rewrite Forall_forall in Hk. symmetry. now apply Hk.
Qed.

Lemma getitem_of_member m :
  In m (EnumMeta.__iter__ T) -> EnumMeta.__getitem__ T (name m) = Return m.
Proof.
  intros Hin. destruct member_map_keyed as [Hk Hwf].
  unfold EnumMeta.__iter__, od_values in Hin.
  apply in_map_iff in Hin as [[k m'] [Hsnd Hin]]. simpl in Hsnd. subst m'.
  rewrite Forall_forall in Hk. pose proof (Hk _ Hin) as Hkey. simpl in Hkey.
  subst k. unfold EnumMeta.__getitem__, od_getitem.
  now rewrite (od_find_In _ _ Hwf Hin).
Qed.


(** X2: member names are pairwise distinct, and the keys of the name
    index are the names of the members in iteration order, whatever the
    class namespace was. *)
Theorem member_names_distinct :
  NoDup (map name (EnumMeta.__iter__ T))
  /\ od_keys (_member_map_ T) = map name (EnumMeta.__iter__ T).
Proof.
  rewrite iter_names_keys. split; [|reflexivity].
  destruct member_map_keyed as [_ Hwf]. exact Hwf.
Qed.

(** X3: looking a member up by its own name gives that member back, and
    two members of a type with the same name are the same member. *)
Theorem getitem_name_roundtrip (m : member V) :
  In m (EnumMeta.__iter__ T) ->
  EnumMeta.__getitem__ T (name m) = Return m
  /\ (forall m', In m' (EnumMeta.__iter__ T) -> name m' = name m -> m' = m).
Proof.
  intros Hin. split; [now apply getitem_of_member|].
  intros m' Hin' Hn. pose proof (getitem_of_member m' Hin') as Hg.
  rewrite Hn, (getitem_of_member m Hin) in Hg. now injection Hg.
Qed.

(** X4: within a type, [str(m)] tells the members apart. *)
Theorem str_identifies_member (m1 m2 : member V) :
  In m1 (EnumMeta.__iter__ T) -> In m2 (EnumMeta.__iter__ T) ->
  Enum.__str__ m1 = Enum.__str__ m2 -> m1 = m2.
Proof.
  intros H1 H2 Hs. unfold Enum.__str__ in Hs.
  rewrite (iter_class Hnew H1), (iter_class Hnew H2) in Hs.
  apply append_inv_head in Hs. apply (append_inv_head "." _ _) in Hs.
  pose proof (getitem_of_member m1 H1) as G1.
  rewrite Hs, (getitem_of_member m2 H2) in G1. now injection G1.
Qed.

End NameIndex.

(** ** Construction: empty types, hooks and derived types *)

Section ConstructionMore.
Context {V : Type} `{PyRuntime V}.

Lemma declared_members_none ty (items : list (string * pyobj V)) :
  (forall b, In b items -> is_member_binding b = false) ->
  declared_members ty items = [].
Proof.
  intros Hall. unfold declared_members.
  induction items as [|b items IH]; simpl; [reflexivity|].
  rewrite (Hall b) by now left. apply IH. intros b' Hb'. apply Hall. now right.
Qed.

Lemma hook_failure_ext (f g : member V -> result unit) ms :
  (forall m, In m ms -> f m = g m) -> hook_failure f ms = hook_failure g ms.
Proof.
  induction ms as [|m ms IH]; simpl; intros Hfg; [reflexivity|].
  rewrite <- (Hfg m) by now left. destruct (f m); [|reflexivity].
  apply IH. intros m' Hm'. apply Hfg. now right.
Qed.

(** X6: a class body without member bindings, as that of [Enum] itself,
    gives an empty type whatever the hook does: its length is zero, it
    iterates over nothing, every name is a missing key and every object
    that is not an instance is an invalid value. *)
Theorem empty_enumeration (tp_init : member V -> result unit) addr cls bases
    (classdict : OrderedDict (pyobj V)) :
  (forall b, In b (od_items classdict) -> is_member_binding b = false) ->
  exists T,
    EnumMeta.__new__ addr tp_init cls bases classdict = Return T
    /\ EnumMeta.__len__ T = 0%nat
    /\ EnumMeta.__iter__ T = []
    /\ EnumMeta.__reversed__ T = []
    /\ cls_dict T = classdict
    /\ (forall n, EnumMeta.__getitem__ T n = Raise (KeyError n))
    /\ (forall v, isinstance v (cls_type T) = false ->
          EnumMeta.__call__ T v
          = Raise (ValueError (py_str v ++ " is not a valid " ++ cls))).
Proof.
  intros Hall. exists (type___new__ addr cls bases classdict).
  rewrite new_spec. simpl. unfold od_items in Hall.
  rewrite (declared_members_none _ _ Hall). simpl.
  repeat split.
  intros v Hinst. unfold EnumMeta.__call__. simpl cls_type. simpl in Hinst.
  rewrite Hinst. unfold dict_getitem. simpl.
  destruct (py_hash v); reflexivity.
Qed.

(** X7: the hook is run on members only.  Two hooks that agree on the
    members made from the class body give the same outcome of
    construction, whatever they do elsewhere. *)
Theorem hook_runs_on_members_only (init1 init2 : member V -> result unit)
    addr cls bases (classdict : OrderedDict (pyobj V)) :
  (forall m, In m (declared_members (type_object addr cls bases)
                     (od_items classdict)) -> init1 m = init2 m) ->
  EnumMeta.__new__ addr init1 cls bases classdict
  = EnumMeta.__new__ addr init2 cls bases classdict.
Proof.
  intros Hagree. rewrite !new_spec. simpl. unfold od_items in Hagree.
  now rewrite (hook_failure_ext init1 init2 _ Hagree).
Qed.

(** X8: instances of a derived enumeration pass unchanged.  When [S]
    derives from [T], directly or through one of its bases, [T(s)] is [s]
    for every member [s] of [S], although [s] is no member of [T]. *)
Theorem call_derived_member_unchanged
    (initT initS : member V -> result unit) addrT clsT basesT
    (dictT : OrderedDict (pyobj V)) T addrS clsS basesS
    (dictS : OrderedDict (pyobj V)) S B (s : member V) :
  EnumMeta.__new__ addrT initT clsT basesT dictT = Return T ->
  EnumMeta.__new__ addrS initS clsS basesS dictS = Return S ->
  In B basesS ->
  tp_id B = tp_id (cls_type T) \/ In (tp_id (cls_type T)) (tp_ancestors B) ->
  In s (EnumMeta.__iter__ S) ->
  EnumMeta.__call__ T (Inst s) = Return (Inst s).
Proof.
  intros HT HS HB Hanc Hs. unfold EnumMeta.__call__, isinstance.
  rewrite (iter_class HS Hs), (built_type HS). simpl.
  assert (Hex : existsb (Nat.eqb (tp_id (cls_type T)))
                  (flat_map (fun b => tp_id b :: tp_ancestors b) basesS) = true).
  { apply existsb_exists. exists (tp_id (cls_type T)).
    split; [|apply Nat.eqb_refl].
    apply in_flat_map. exists B. split; [exact HB|].
    destruct Hanc as [<-|Hin]; [now left | now right]. }
  rewrite Hex, orb_true_r. reflexivity.
Qed.
End ConstructionMore.

(** ** The value index *)

Section IndexMore.
Context {V : Type} `{PyRuntime V}.

Lemma dict_store_hashed (d : pydict V) h m :
  Forall slot_hashed d -> py_hash (value m) = Some h ->
  Forall slot_hashed (dict_store d h (value m) m).
Proof.
  intros Hd Hh. induction d as [|e d IH]; simpl.
  - constructor; [split; assumption | constructor].
  - inversion Hd as [|? ? He Hd']; subst.
    destruct (key_match e h (value m)) eqn:Hk.
    + constructor; [|assumption]. destruct He as [Hkey _].
      unfold key_match in Hk. apply andb_true_iff in Hk as [Hz _].
      apply Z.eqb_eq in Hz. split; simpl; [assumption | now rewrite Hz].
    + constructor; auto.
Qed.

Lemma index_fold_hashed ms (d : pydict V) :
  Forall slot_hashed d -> Forall slot_hashed (fold_left index_add ms d).
Proof.
  revert d. induction ms as [|m ms IH]; simpl; intros d Hd; [assumption|].
  apply IH. unfold index_add.
  destruct (py_hash (value m)) as [h|] eqn:Hh; [now apply dict_store_hashed | assumption].
Qed.

Lemma dict_store_length (d : pydict V) h k m :
  (List.length (dict_store d h k m) <= S (List.length d))%nat.
Proof.
  induction d as [|e d IH]; simpl; [auto|].
  destruct (key_match e h k); simpl; [auto | now apply le_n_S].
Qed.

Lemma index_fold_length ms (d : pydict V) :
  (List.length (fold_left index_add ms d) <= List.length d + List.length ms)%nat.
Proof.
  revert d. induction ms as [|m ms IH]; simpl; intros d.
  - now rewrite Nat.add_0_r.
  - eapply Nat.le_trans; [apply IH|]. unfold index_add.
    destruct (py_hash (value m)).
    + pose proof (dict_store_length d z (value m) m) as Hl.
      rewrite Nat.add_succ_r. now apply Nat.add_le_mono_r with (p := List.length ms) in Hl.
    + rewrite Nat.add_succ_r. auto.
Qed.

(** Storing never loses a key: what was found is still found. *)
Lemma dict_store_keeps (d : pydict V) h k m h' q x :
  dict_find d h' q = Some x ->
  exists y, dict_find (dict_store d h k m) h' q = Some y.
Proof.
  induction d as [|e d IH]; simpl; [discriminate|].
  destruct (key_match e h k) eqn:Hk; simpl.
  - change (key_match {| e_hash := e_hash e; e_key := e_key e; e_val := m |} h' q)
      with (key_match e h' q).
    destruct (key_match e h' q); intros Hf; eauto.
  - destruct (key_match e h' q); intros Hf; eauto.
Qed.

Lemma index_fold_keeps ms (d : pydict V) h' q x :
  dict_find d h' q = Some x ->
  exists y, dict_find (fold_left index_add ms d) h' q = Some y.
Proof.
  revert d x. induction ms as [|m ms IH]; simpl; intros d x Hf; [eauto|].
  unfold index_add at 2. destruct (py_hash (value m)) as [h|].
  - destruct (dict_store_keeps d h (value m) m _ _ Hf) as [y Hy]. eauto.
  - eauto.
Qed.

Variable tp_init : member V -> result unit.
Variables (addr : nat) (cls : string) (bases : list pytype).
Variable classdict : OrderedDict (pyobj V).
Variable T : enum_type V.
Hypothesis Hwf : od_wf classdict.
Hypothesis Hnew : EnumMeta.__new__ addr tp_init cls bases classdict = Return T.

(** X9: what the value index holds.  Every slot keeps the hash of its
    key, the member in it has a hashable value of that hash, so a member
    with an unhashable value is in no slot, and there are never more
    slots than members. *)
Theorem value_index_slots :
  Forall (fun e => py_hash (e_key e) = Some (e_hash e)
                   /\ py_hash (value (e_val e)) = Some (e_hash e))
    (_value_to_member_map_ T)
  /\ (forall m, py_hash (value m) = None ->
        forall e, In e (_value_to_member_map_ T) -> e_val e <> m)
  /\ (List.length (_value_to_member_map_ T) <= EnumMeta.__len__ T)%nat.
Proof.
  assert (Hs : Forall slot_hashed (_value_to_member_map_ T)).
  { rewrite (built_value_map Hnew). apply index_fold_hashed. constructor. }
  split; [exact Hs|]. split.
  - intros m Hnone e He Heq. rewrite Forall_forall in Hs.
    destruct (Hs e He) as [_ Hv]. rewrite Heq in Hv. congruence.
  - unfold EnumMeta.__len__, od_len.
    rewrite (built_value_map Hnew), (built_member_map Hnew Hwf), length_map.
    apply (index_fold_length _ []).
Qed.

(** X10: the index answers for every hashable member value.  When the
    value of a member is hashable and is, or equals, itself, looking it
    up in the index succeeds, with a member of the type. *)
Theorem index_finds_member_values (m : member V) h :
  In m (EnumMeta.__iter__ T) ->
  py_hash (value m) = Some h ->
  (py_is (value m) (value m) || py_eq (value m) (value m)) = true ->
  exists m', dict_getitem (_value_to_member_map_ T) (value m) = Return m'
             /\ In m' (EnumMeta.__iter__ T).
Proof.
  intros Hin Hh Hrefl. rewrite (built_iter Hnew Hwf) in Hin.
  apply in_split in Hin as (l1 & l2 & Hsplit).
  assert (Hf : exists y, dict_find (_value_to_member_map_ T) h (value m) = Some y).
  { rewrite (built_value_map Hnew), Hsplit, fold_left_app. simpl fold_left.
    apply index_fold_keeps with (x := m).
    unfold index_add at 1. rewrite Hh. now apply dict_find_store_same. }
  destruct Hf as [y Hy]. exists y. unfold dict_getitem. rewrite Hh, Hy.
  split; [reflexivity|].
  apply dict_find_Some in Hy as (e & He & _ & <-).
  pose proof (value_map_ok Hnew Hwf) as Hok. rewrite Forall_forall in Hok.
  now destruct (Hok e He) as (Hv & _).
Qed.
End IndexMore.

(** ** Conversion by value, continued *)

Section ForeignMembers.
Context {V : Type} `{PyRuntime V}.
Variable tp_init : member V -> result unit.
Variables (addr : nat) (cls : string) (bases : list pytype).
Variable classdict : OrderedDict (pyobj V).
Variable T : enum_type V.
Hypothesis Hwf : od_wf classdict.
Hypothesis Hnew : EnumMeta.__new__ addr tp_init cls bases classdict = Return T.

End ForeignMembers.

Section ByValueMore.
Context {V : Type} `{PyLaws V}.
Variable tp_init : member V -> result unit.
Variables (addr : nat) (cls : string) (bases : list pytype).
Variable classdict : OrderedDict (pyobj V).
Variable T : enum_type V.
Hypothesis Hwf : od_wf classdict.
Hypothesis Hnew : EnumMeta.__new__ addr tp_init cls bases classdict = Return T.

(** The two outcomes of converting an object that is not an instance. *)
Lemma call_cases (v : pyobj V) :
  isinstance v (cls_type T) = false ->
  (EnumMeta.__call__ T v
     = Raise (ValueError (py_str v ++ " is not a valid " ++ cls))
   /\ forall m, In m (EnumMeta.__iter__ T) -> py_eq (value m) v = false)
  \/ exists m, In m (EnumMeta.__iter__ T) /\ py_eq (value m) v = true
               /\ EnumMeta.__call__ T v = Return (Inst m).
Proof.
  intros Hinst. unfold EnumMeta.__call__. rewrite Hinst. unfold dict_getitem.
  fold (EnumMeta.__iter__ T). rewrite <- (built_name Hnew).
  assert (Hscan :
    match EnumMeta.long_search (EnumMeta.__iter__ T) v with
    | Some m => In m (EnumMeta.__iter__ T) /\ py_eq (value m) v = true
    | None => forall m, In m (EnumMeta.__iter__ T) -> py_eq (value m) v = false
    end).
  { unfold EnumMeta.long_search. destruct (find _ _) as [m|] eqn:Hf.
    - now apply find_some in Hf.
    - intros m Hm. exact (find_none _ _ Hf m Hm). }
  destruct (py_hash v) as [h|]; simpl.
  - destruct (dict_find (_value_to_member_map_ T) h v) as [m|] eqn:Hf; simpl.
    + right. exists m.
      destruct (index_hit_equal tp_init addr cls bases Hwf Hnew h v Hf) as [Hm He].
      auto.
    + destruct (EnumMeta.long_search _ v) as [m|]; [right; exists m | left]; tauto.
  - destruct (EnumMeta.long_search _ v) as [m|]; [right; exists m | left]; tauto.
Qed.

(** X12: conversion returns members only.  Whatever [T(v)] returns is
    [v] itself when [v] is an instance of [T], and otherwise a member of
    [T] whose value compares equal to [v]. *)
Theorem call_returns_members (v o : pyobj V) :
  EnumMeta.__call__ T v = Return o ->
  (isinstance v (cls_type T) = true /\ o = v)
  \/ (isinstance v (cls_type T) = false
      /\ exists m, o = Inst m /\ In m (EnumMeta.__iter__ T)
                   /\ py_eq (value m) v = true).
Proof.
  intros Hcall. destruct (isinstance v (cls_type T)) eqn:Hinst.
  - left. unfold EnumMeta.__call__ in Hcall. rewrite Hinst in Hcall.
    injection Hcall as <-. auto.
  - right. split; [reflexivity|].
    destruct (call_cases v Hinst) as [[Hr _]|(m & Hm & He & Hc)]; [congruence|].
    exists m. rewrite Hc in Hcall. injection Hcall as <-. auto.
Qed.

(** X13: reconstruction from the reduced form.  [m.__reduce_ex__(proto)]
    is the type of [m] with the value of [m] as only argument; calling the
    type on that argument gives a member whose value equals that of [m],
    and [m] itself when no other member has an equal value. *)
Theorem reduce_call_roundtrip (m : member V) (proto : Z) :
  In m (EnumMeta.__iter__ T) ->
  isinstance (value m) (cls_type T) = false ->
  py_eq (value m) (value m) = true ->
  Enum.__reduce_ex__ m proto = (cls_type T, [value m])
  /\ (exists m', EnumMeta.__call__ T (value m) = Return (Inst m')
                 /\ In m' (EnumMeta.__iter__ T)
                 /\ py_eq (value m') (value m) = true)
  /\ ((forall m', In m' (EnumMeta.__iter__ T) ->
         py_eq (value m') (value m) = true -> m' = m) ->
      EnumMeta.__call__ T (value m) = Return (Inst m)).
Proof.
  intros Hin Hinst Hrefl.
  assert (Hex : exists m', EnumMeta.__call__ T (value m) = Return (Inst m')
                 /\ In m' (EnumMeta.__iter__ T)
                 /\ py_eq (value m') (value m) = true).
  { destruct (call_cases (value m) Hinst) as [[_ Hall]|(m' & Hm' & He & Hc)].
    - rewrite (Hall m Hin) in Hrefl. discriminate.
    - exists m'. auto. }
  split; [|split; [exact Hex|]].
  - unfold Enum.__reduce_ex__. now rewrite (iter_class Hnew Hin).
  - intros Huniq. destruct Hex as (m' & Hc & Hm' & He).
    rewrite (Huniq m' Hm' He) in Hc. exact Hc.
Qed.

End ByValueMore.

(** * The name filter of the type-checker plugin *)

Section PluginNames.
Import MypyPlugin.

Lemma prefix_iff (r s : string) :
  String.prefix r s = true <-> exists post, s = r ++ post.
Proof.
  revert s. induction r as [|c r IH]; intros s.
  - split; [intros _; now exists s | intros _; now destruct s].
  - destruct s as [|c' s]; simpl.
    + split; [discriminate | intros [post Hp]; discriminate].
    + destruct (Ascii.ascii_dec c c') as [->|Hne].
      * rewrite IH. split; intros [post Hp]; exists post; congruence.
      * split; [discriminate | intros [post Hp]; congruence].
Qed.

Lemma str_contains_iff (s r : string) :
  str_contains s r = true <-> exists pre post, s = pre ++ r ++ post.
Proof.
  induction s as [|c s IH].
  - change (str_contains EmptyString r) with (String.prefix r EmptyString || false).
    rewrite orb_false_r, prefix_iff. split.
    + intros [post Hp]. now exists EmptyString, post.
    + intros (pre & post & Hp). destruct pre; [now exists post | discriminate].
  - change (str_contains (String c s) r)
      with (String.prefix r (String c s) || str_contains s r).
    rewrite orb_true_iff, IH, prefix_iff. split.
    + intros [[post Hp]|(pre & post & Hp)].
      * now exists EmptyString, post.
      * exists (String c pre), post. simpl. now rewrite Hp.
    + intros (pre & post & Hp). destruct pre as [|c' pre]; simpl in Hp.
      * left. now exists post.
      * right. exists pre, post. congruence.
Qed.

Lemma str_contains_extend (s r pre post : string) :
  str_contains s r = true -> str_contains (pre ++ s ++ post) r = true.
Proof.
  rewrite !str_contains_iff. intros (p & q & ->).
  exists (pre ++ p), (q ++ post). now rewrite !string_append_assoc.
Qed.

Lemma supported_loop_exists (rs : list string) (fullname : string) :
  supported_loop rs fullname =
  existsb (str_contains fullname) rs && negb (set_contains BLACKLIST fullname).
Proof.
  induction rs as [|r rs IH]; cbn [supported_loop existsb]; [reflexivity|].
  rewrite IH.
  destruct (str_contains fullname r),
    (negb (set_contains BLACKLIST fullname)); cbn [andb orb];
    rewrite ?andb_false_r, ?andb_true_r; reflexivity.
Qed.

Lemma existsb_permutation {A : Type} (f : A -> bool) l l' :
  Permutation l l' -> existsb f l = existsb f l'.
Proof.
  induction 1; simpl; try congruence.
  destruct (f x), (f y); reflexivity.
Qed.

(** X15: which names the plugin handles.  A full name is supported
    exactly when [Enum] or [.fastenum] occurs in it and it is not
    [FastEnumPlugin]; the entry [fastenum.Enum] of the register and the
    second entry of the blacklist change nothing; and no blacklisted name
    is supported. *)
Theorem fullname_supported_iff (fullname : string) :
  (_is_fullname_supported fullname = true <->
   ((exists pre post, fullname = pre ++ "Enum" ++ post)
    \/ (exists pre post, fullname = pre ++ ".fastenum" ++ post))
   /\ fullname <> "FastEnumPlugin")
  /\ (In fullname BLACKLIST -> _is_fullname_supported fullname = false).
Proof.
  unfold _is_fullname_supported. rewrite supported_loop_exists.
  split.
  - simpl existsb. rewrite orb_false_r, andb_true_iff, negb_true_iff.
    rewrite <- !str_contains_iff. split.
    + intros [Hc Hb]. split.
      * apply orb_true_iff in Hc as [Hc|Hc].
        { left. apply str_contains_iff in Hc as (pre & post & ->).
          apply str_contains_iff. exists (pre ++ "fastenum."), post.
          now rewrite !string_append_assoc. }
        apply orb_true_iff in Hc as [Hc|Hc]; auto.
      * intros ->. discriminate.
    + intros [Hc Hne]. split.
      * destruct Hc as [Hc|Hc]; rewrite Hc; now rewrite ?orb_true_r.
      * unfold set_contains, BLACKLIST. simpl. rewrite orb_false_r.
        apply orb_false_iff. split; [now apply String.eqb_neq|].
        apply String.eqb_neq. intros ->. destruct Hc as [Hc|Hc]; discriminate.
  - intros Hin.
    assert (Hb : set_contains BLACKLIST fullname = true).
    { unfold set_contains. apply existsb_exists. exists fullname.
      split; [assumption | apply String.eqb_refl]. }
    rewrite Hb. simpl. apply andb_false_r.
Qed.

(** X16: the order in which the register is traversed does not matter:
    the loop gives the same answer on every permutation of the register. *)
Theorem supported_order_irrelevant (register register' : list string)
    (fullname : string) :
  Permutation register register' ->
  supported_loop register fullname = supported_loop register' fullname.
Proof.
  intros Hp. rewrite !supported_loop_exists.
  now rewrite (existsb_permutation _ Hp).
Qed.

(** X17: support extends to longer names.  A name that contains a
    supported name, such as the path of a module that ends in
    [.fastenum], is supported as well unless it is blacklisted itself. *)
Theorem supported_extends (fullname pre post : string) :
  _is_fullname_supported fullname = true ->
  set_contains BLACKLIST (pre ++ fullname ++ post) = false ->
  _is_fullname_supported (pre ++ fullname ++ post) = true.
Proof.
  unfold _is_fullname_supported. rewrite !supported_loop_exists.
  intros Hs Hb. apply andb_true_iff in Hs as [Hc _].
  rewrite Hb, andb_true_r.
  apply existsb_exists in Hc as (r & Hr & Hc).
  apply existsb_exists. exists r. split; [assumption|].
  now apply str_contains_extend.
Qed.
End PluginNames.

(** * The further properties on the scenarios *)

Lemma Shade_new :
  EnumMeta.__new__ 6 object___init__ "Shade" [cls_type Color] Shade_dict
  = Return Shade.
Proof. reflexivity. Qed.


Lemma member_names_distinct_witness :
  NoDup (map name (EnumMeta.__iter__ Color)).
Proof.
  apply (member_names_distinct object___init__ 2 "Color" [Enum_type]
           Color_dict Color_new).
Defined.

Lemma getitem_name_roundtrip_witness :
  EnumMeta.__getitem__ Color (name Color_GREEN) = Return Color_GREEN.
Proof.
  apply (getitem_name_roundtrip object___init__ 2 "Color" [Enum_type]
           Color_dict Color_new Color_GREEN).
  simpl. right. left. reflexivity.
Defined.

Lemma str_identifies_member_witness :
  new_member (cls_type Color) "GREEN" (Plain (PyInt 2)) = Color_GREEN.
Proof.
  apply (str_identifies_member object___init__ 2 "Color" [Enum_type]
           Color_dict Color_new).
  - simpl. right. left. reflexivity.
  - simpl. right. left. reflexivity.
  - reflexivity.
Defined.


Lemma empty_enumeration_witness :
  exists T,
    EnumMeta.__new__ 1 checked___init__ "Enum" [object_type] Enum_dict = Return T
    /\ EnumMeta.__len__ T = 0%nat.
Proof.
  destruct (empty_enumeration checked___init__ 1 "Enum" [object_type] Enum_dict)
    as (T & Hnew & Hlen & _).
  - intros b Hb. simpl in Hb.
    repeat (destruct Hb as [<-|Hb]; [reflexivity|]). destruct Hb.
  - exists T. split; assumption.
Defined.

Lemma hook_runs_on_members_only_witness :
  EnumMeta.__new__ 2 checked___init__ "Color" [Enum_type] Color_dict
  = EnumMeta.__new__ 2 object___init__ "Color" [Enum_type] Color_dict.
Proof.
  apply hook_runs_on_members_only.
  intros m [<-|[<-|[<-|[]]]]; reflexivity.
Defined.

Lemma call_derived_member_unchanged_witness :
  EnumMeta.__call__ Color
    (Inst (new_member (cls_type Shade) "DARK" (Plain (PyInt 10))))
  = Return (Inst (new_member (cls_type Shade) "DARK" (Plain (PyInt 10)))).
Proof.
  apply (call_derived_member_unchanged object___init__ object___init__
           2 "Color" [Enum_type] Color_dict 6 "Shade" [cls_type Color]
           Shade_dict (cls_type Color)
           (new_member (cls_type Shade) "DARK" (Plain (PyInt 10)))
           Color_new Shade_new).
  - left. reflexivity.
  - left. reflexivity.
  - simpl. left. reflexivity.
Defined.

Lemma value_index_slots_witness :
  (List.length (_value_to_member_map_ Flags) <= EnumMeta.__len__ Flags)%nat.
Proof.
  apply (value_index_slots object___init__ 3 "Flags" [Enum_type]
           Flags_dict_wf Flags_new).
Defined.

Lemma index_finds_member_values_witness :
  exists m', dict_getitem (_value_to_member_map_ Color) (value Color_GREEN)
             = Return m'
             /\ In m' (EnumMeta.__iter__ Color).
Proof.
  apply (index_finds_member_values object___init__ 2 "Color" [Enum_type]
           Color_dict_wf Color_new Color_GREEN (h := 2)).
  - simpl. right. left. reflexivity.
  - reflexivity.
  - reflexivity.
Defined.


Lemma call_returns_members_witness :
  exists m, Inst Color_GREEN = Inst m /\ In m (EnumMeta.__iter__ Color)
            /\ py_eq (value m) (Plain (PyInt 2)) = true.
Proof.
  destruct (call_returns_members object___init__ 2 "Color" [Enum_type]
              Color_dict_wf Color_new (Plain (PyInt 2)) (o := Inst Color_GREEN)
              eq_refl) as [[Hinst _]|[_ Hex]].
  - discriminate Hinst.
  - exact Hex.
Defined.

Lemma reduce_call_roundtrip_witness :
  Enum.__reduce_ex__ Color_GREEN 2 = (cls_type Color, [Plain (PyInt 2)])
  /\ EnumMeta.__call__ Color (Plain (PyInt 2)) = Return (Inst Color_GREEN).
Proof.
  destruct (reduce_call_roundtrip object___init__ 2 "Color" [Enum_type]
              Color_dict_wf Color_new Color_GREEN 2) as (Hr & _ & Hu).
  - simpl. right. left. reflexivity.
  - reflexivity.
  - reflexivity.
  - split; [exact Hr|]. apply Hu.
    intros m' [<-|[<-|[<-|[]]]]; simpl; intros Heq;
      try discriminate; reflexivity.
Defined.


Lemma supported_order_irrelevant_witness :
  MypyPlugin.supported_loop MypyPlugin.REGISTER "main.Enum"
  = MypyPlugin.supported_loop (rev MypyPlugin.REGISTER) "main.Enum".
Proof.
  apply (supported_order_irrelevant "main.Enum"). apply Permutation_rev.
Defined.

Lemma supported_extends_witness :
  MypyPlugin._is_fullname_supported "controllers.orders.types.fastenum" = true.
Proof.
  apply (supported_extends ".fastenum" "controllers.orders.types" EmptyString);
    reflexivity.
Defined.
